(** * PayMongo client: request shaping, transport, errors and facade

    A shallow embedding of the TypeScript sources

    - [resources/Base.ts]   ([BaseResource.toSnakeCase], [BaseResource.wrapBody])
    - [utils/errors.ts]     ([PayMongoError.fromResponse])
    - [utils/http.ts]       ([HttpClient.buildUrl], [getAuthHeader], [request])
    - [PayMongo.ts]         ([resolveConfig], the constructor, [getInstance],
                             [resetInstance])
    - [resources/*.ts]      (the operations of the seven resource clients)

    together with the properties of these functions that the specification
    of the library states. *)

From Stdlib Require Import ZArith NArith Ascii String List Bool Lia.
From Stdlib Require Import DecimalString.
From stdpp Require Import base tactics option list strings.
Import ListNotations.
Local Open Scope string_scope.
Local Open Scope list_scope.

(** ** JavaScript values

    Plain data as the library handles it: what [JSON.parse] produces and what
    callers pass as parameter records, plus [undefined].  Strings are
    sequences of 8-bit characters (the code units 0..255).  Numbers are the
    integers the API uses (amounts in minor units, limits, statuses), which
    are safe integers; fractional doubles are not represented.

    An object is its list of own enumerable entries in [Object.entries]
    order; its prototype is [Object.prototype].  [obj_set] is the assignment
    [o[k] = v]: an existing key keeps its position, a new key goes last, and
    the name [__proto__] that is not an own key reaches the accessor of
    [Object.prototype] and adds no entry.  (The engine's special placement
    of integer-like keys is not modelled; no property below depends on the
    order in which distinct keys are listed.) *)

Module Js.

#[local] Set Warnings "-register-all".

Inductive value : Type :=
| JUndefined
| JNull
| JBool (b : bool)
| JNum (n : Z)
| JStr (s : string)
| JArr (l : list value)
| JObj (o : list (string * value)).

Definition obj : Type := list (string * value).

(** [v !== undefined && v !== null] *)
Definition present (v : value) : bool :=
  match v with
  | JUndefined | JNull => false
  | _ => true
  end.

(** [v !== undefined] *)
Definition defined (v : value) : bool :=
  match v with
  | JUndefined => false
  | _ => true
  end.

(** ToBoolean. *)
Definition truthy (v : value) : bool :=
  match v with
  | JUndefined | JNull => false
  | JBool b => b
  | JNum n => negb (n =? 0)%Z
  | JStr s => negb (s =? EmptyString)%string
  | JArr _ | JObj _ => true
  end.

(** Own-property read [o[k]]; [None] is JavaScript's [undefined] for a
    missing property. *)
Fixpoint obj_get (o : obj) (k : string) : option value :=
  match o with
  | [] => None
  | (k', v) :: o' => if (k' =? k)%string then Some v else obj_get o' k
  end.

(** CreateDataProperty on an ordinary object: the own entry [k] is
    overwritten in place, or added last. *)
Fixpoint obj_put (o : obj) (k : string) (v : value) : obj :=
  match o with
  | [] => [(k, v)]
  | (k', v') :: o' =>
      if (k' =? k)%string then (k, v) :: o' else (k', v') :: obj_put o' k v
  end.

(** [o.hasOwnProperty(k)] *)
Definition has_own (o : obj) (k : string) : bool :=
  match obj_get o k with
  | Some _ => true
  | None => false
  end.

(** Assignment [o[k] = v] on an object whose prototype chain ends in
    [Object.prototype].  An own entry is overwritten.  Otherwise the name
    [__proto__] finds the accessor of [Object.prototype]: its setter
    replaces the prototype of [o] when [v] is an object and does nothing
    when [v] is a primitive, and in both cases [o] gets no own entry.  The
    prototype is not part of the model: the library reads the records it
    builds this way through [Object.entries] and [JSON.stringify] only,
    which see own entries. *)
Definition obj_set (o : obj) (k : string) (v : value) : obj :=
  if (k =? "__proto__")%string && negb (has_own o k) then o else obj_put o k v.

(** The string that ToString gives on plain data, when it gives one
    ([ToString] below says when it throws instead).  An array joins its
    elements with commas, [undefined] and [null] elements giving the empty
    string; a plain object prints as [[object Object]].  Integers print in
    decimal, which is what [Number.prototype.toString] gives on the safe
    integers ([safe_integer]). *)
Fixpoint js_toString (v : value) : string :=
  match v with
  | JUndefined => "undefined"
  | JNull => "null"
  | JBool b => if b then "true" else "false"
  | JNum n => NilZero.string_of_int (Z.to_int n)
  | JStr s => s
  | JArr l =>
      (fix join (l : list value) : string :=
         match l with
         | [] => EmptyString
         | x :: l' =>
             let sx := if present x then js_toString x else EmptyString in
             match l' with
             | [] => sx
             | _ :: _ => sx +:+ "," +:+ join l'
             end
         end) l
  | JObj _ => "[object Object]"
  end.

(** Member read [v.k] on a value that is neither [undefined] nor [null],
    for a name [k] that no built-in prototype defines and that is not an
    array index ([errors], [detail] and [code] are such names): only a plain
    object can hold it. *)
Definition js_member (v : value) (k : string) : value :=
  match v with
  | JObj o => default JUndefined (obj_get o k)
  | _ => JUndefined
  end.

(** Optional chaining [v?.k] for such a name. *)
Definition js_opt_member (v : value) (k : string) : value :=
  if present v then js_member v k else JUndefined.

(** Indexed read [v[0]] on a value that is neither [undefined] nor [null]. *)
Definition js_index0 (v : value) : value :=
  match v with
  | JArr l => hd JUndefined l
  | JStr (String c _) => JStr (String c EmptyString)
  | JObj o => default JUndefined (obj_get o "0")
  | _ => JUndefined
  end.

(** Nullish coalescing [v ?? d]. *)
Definition js_coalesce (v d : value) : value := if present v then v else d.

Definition keys (o : obj) : list string := map fst o.

(** [Number.isSafeInteger(n)] *)
Definition safe_integer (n : Z) : bool :=
  (Z.abs n <=? 9007199254740991)%Z.

End Js.
Import Js.

(** ** What the library throws

    [utils/errors.ts] declares three error classes; anything else that can
    be thrown comes from the host: the [TypeError] of [new URL], of a
    member read on [null] or [undefined], and of a conversion to string. *)

Record JsError := { err_name : string; err_message : string }.

(** The fields of a [PayMongoError]. *)
Module PayMongoErrorFields.

Record t := {
  message : string;
  status : Z;
  code : value;
  errors : value;
  rawResponse : value
}.

(** [e.errors.length] when [errors] is an array. *)
Definition errors_length (e : t) : option nat :=
  match errors e with
  | JArr l => Some (length l)
  | _ => None
  end.

End PayMongoErrorFields.

Inductive thrown : Type :=
| ThrowPayMongoError (e : PayMongoErrorFields.t)
| ThrowPayMongoConfigError (message : string)
| ThrowPayMongoNetworkError (message : string) (originalError : JsError)
| ThrowTypeError (e : JsError).

(** The result of a call that may throw. *)
Inductive outcome (A : Type) : Type :=
| Return (a : A)
| Throw (e : thrown).
Arguments Return {A} a.
Arguments Throw {A} e.

#[global] Instance outcome_ret : MRet outcome := λ A a, Return a.

#[global] Instance outcome_bind : MBind outcome := λ A B f m,
  match m with
  | Return a => f a
  | Throw e => Throw e
  end.

(** ** ToString, where it can throw

    ToString of an object runs OrdinaryToPrimitive: [toString] is called if
    it is callable, then [valueOf], and a [TypeError] is thrown when neither
    gives a primitive.  A plain object inherits both from
    [Object.prototype], and prints as [[object Object]], unless it has an
    own entry [toString]: no value of the model is callable, so that entry
    is skipped, [valueOf] (inherited, or an own entry that is not callable
    either) gives no primitive, and the conversion throws.  An array
    converts its elements from left to right and throws when one of them
    does. *)

Definition cannot_convert : JsError :=
  {| err_name := "TypeError";
     err_message := "Cannot convert object to primitive value" |}.

Fixpoint ToString (v : value) : outcome string :=
  match v with
  | JArr l =>
      (fix join (l : list value) : outcome string :=
         match l with
         | [] => Return EmptyString
         | x :: l' =>
             sx ← (if present x then ToString x else Return EmptyString);
             match l' with
             | [] => Return sx
             | _ :: _ => rest ← join l'; Return (sx +:+ "," +:+ rest)
             end
         end) l
  | JObj o =>
      if has_own o "toString" then Throw (ThrowTypeError cannot_convert)
      else Return "[object Object]"
  | _ => Return (js_toString v)
  end.

(** ** [utils/errors.ts]: [PayMongoError] *)

Module PayMongoError.

Include PayMongoErrorFields.

(** [fromResponse(status, body)].  The constructor passes the message to
    [super(message)], and the [Error] constructor stores ToString of it:
    when that conversion throws, no error object is built and the
    [TypeError] comes out of [fromResponse]. *)
Definition fromResponse (status : Z) (body : value) : outcome t :=
  let errors := js_coalesce (js_opt_member body "errors") (JArr []) in
  let firstError := js_index0 errors in
  let message :=
    js_coalesce (js_opt_member firstError "detail")
      (JStr ("PayMongo API error (status " +:+ js_toString (JNum status) +:+ ")")) in
  let code := js_coalesce (js_opt_member firstError "code") (JStr "unknown_error") in
  text ← ToString message;
  Return {| message := text; status := status; code := code;
            errors := errors; rawResponse := body |}.

End PayMongoError.

(** ** Base64 (RFC 4648), the encoding computed by [btoa] and by
    [Buffer.prototype.toString('base64')] *)

Module Base64.

Definition alphabet : string :=
  "ABCDEFGHIJKLMNOPQRSTUVWXYZabcdefghijklmnopqrstuvwxyz0123456789+/".

Definition digit (n : N) : ascii :=
  default "="%char (String.get (N.to_nat n) alphabet).

Fixpoint index_from (c : ascii) (s : string) (i : N) : option N :=
  match s with
  | EmptyString => None
  | String c' s' => if Ascii.eqb c' c then Some i else index_from c s' (i + 1)
  end.

Definition value_of (c : ascii) : option N := index_from c alphabet 0.

Definition byte (n : N) : ascii := ascii_of_N n.

(** Three bytes give four digits; one or two trailing bytes are padded. *)
Fixpoint encode (s : string) : string :=
  match s with
  | EmptyString => EmptyString
  | String a EmptyString =>
      let a := N_of_ascii a in
      String (digit (a / 4)) (String (digit (a mod 4 * 16)) "==")
  | String a (String b EmptyString) =>
      let a := N_of_ascii a in
      let b := N_of_ascii b in
      String (digit (a / 4))
        (String (digit (a mod 4 * 16 + b / 16))
           (String (digit (b mod 16 * 4)) "="))
  | String a (String b (String c rest)) =>
      let a := N_of_ascii a in
      let b := N_of_ascii b in
      let c := N_of_ascii c in
      String (digit (a / 4))
        (String (digit (a mod 4 * 16 + b / 16))
           (String (digit (b mod 16 * 4 + c / 64))
              (String (digit (c mod 64)) (encode rest))))
  end.

(** Strict decoding of padded input; [None] on anything else. *)
Fixpoint decode (s : string) : option string :=
  match s with
  | EmptyString => Some EmptyString
  | String c1 (String c2 (String c3 (String c4 rest))) =>
      s1 ← value_of c1; s2 ← value_of c2;
      let a := byte (s1 * 4 + s2 / 16) in
      if Ascii.eqb c3 "=" then
        if Ascii.eqb c4 "=" && (rest =? EmptyString)%string && (s2 mod 16 =? 0)%N
        then Some (String a EmptyString) else None
      else
        s3 ← value_of c3;
        let b := byte (s2 mod 16 * 16 + s3 / 4) in
        if Ascii.eqb c4 "=" then
          if (rest =? EmptyString)%string && (s3 mod 4 =? 0)%N
          then Some (String a (String b EmptyString)) else None
        else
          s4 ← value_of c4;
          let c := byte (s3 mod 4 * 64 + s4) in
          tl ← decode rest;
          Some (String a (String b (String c tl)))
  | _ => None
  end.

End Base64.

(** ** [types/config.ts] *)

Record PayMongoConfig := {
  publicKey : option string;
  secretKey : option string;
  baseUrl : option string
}.

(** [ResolvedConfig]; its field [baseUrl] is [resolvedBaseUrl] here, to
    keep it apart from the optional [baseUrl] of [PayMongoConfig]. *)
Record ResolvedConfig := {
  apiKey : string;
  resolvedBaseUrl : string;
  isPublicKey : bool
}.

(** ** The host: URL, JSON, fetch

    The library delegates to the platform for URL parsing, JSON and the
    network.  A [Host] fixes what the platform does in one run. *)

(** A parsed URL: its serialization up to and including the path, its query
    ([None] when it has none), the list behind [url.searchParams], and its
    fragment. *)
Record URL := {
  url_base : string;
  url_query : option string;
  url_searchParams : list (string * string);
  url_fragment : option string
}.

Inductive HttpMethod := GET | POST | PATCH | DELETE.

Record RequestInit := {
  init_method : HttpMethod;
  init_headers : list (string * string);
  init_body : option string
}.

(** A response: its status and what [response.text()] resolves to ([None]
    when reading the body fails). *)
Record Response := {
  response_status : Z;
  response_text : option string
}.

Inductive fetch_result :=
| FetchResolved (r : Response)
| FetchRejected (cause : JsError).

Record Host := {
  (** [typeof btoa === 'function'] *)
  btoa_defined : bool;
  (** [new URL(path, base)]; [None] when it throws a [TypeError] *)
  URL_new : string → string → option URL;
  JSON_stringify : value → string;
  (** [JSON.parse]; [None] when it throws a [SyntaxError] *)
  JSON_parse : string → option value;
  fetch : string → RequestInit → fetch_result
}.

(** [response.ok]: the status is in the range 200 to 299 (Fetch Standard). *)
Definition response_ok (r : Response) : bool :=
  ((200 <=? response_status r) && (response_status r <=? 299))%Z.

(** UTF-8 encoding of a string of code units below 256. *)
Fixpoint utf8 (s : string) : string :=
  match s with
  | EmptyString => EmptyString
  | String c rest =>
      let n := N_of_ascii c in
      if (n <? 128)%N then String c (utf8 rest)
      else String (ascii_of_N (192 + n / 64))
             (String (ascii_of_N (128 + n mod 64)) (utf8 rest))
  end.

(** Decoding of what [utf8] produces; [None] on any other input. *)
Fixpoint utf8_decode (s : string) : option string :=
  match s with
  | EmptyString => Some EmptyString
  | String c rest =>
      let n := N_of_ascii c in
      if (n <? 128)%N then tl ← utf8_decode rest; Some (String c tl)
      else
        match rest with
        | EmptyString => None
        | String c2 rest' =>
            let n2 := N_of_ascii c2 in
            if ((194 <=? n) && (n <=? 195) && (128 <=? n2) && (n2 <=? 191))%N
            then tl ← utf8_decode rest';
                 Some (String (ascii_of_N ((n - 192) * 64 + (n2 - 128))) tl)
            else None
        end
  end.

(** Every character is an ASCII character. *)
Fixpoint ascii_only (s : string) : bool :=
  match s with
  | EmptyString => true
  | String c rest => (N_of_ascii c <? 128)%N && ascii_only rest
  end.

(** The application/x-www-form-urlencoded serializer of the URL Standard,
    which [url.toString()] applies to the list behind [searchParams]. *)
Module FormUrlEncoded.

Definition unreserved (c : ascii) : bool :=
  let n := N_of_ascii c in
  ((n =? 42) || (n =? 45) || (n =? 46) || (n =? 95)
   || ((48 <=? n) && (n <=? 57))
   || ((65 <=? n) && (n <=? 90))
   || ((97 <=? n) && (n <=? 122)))%N.

Definition hex_digit (n : N) : ascii :=
  default "0"%char (String.get (N.to_nat n) "0123456789ABCDEF").

Fixpoint encode_bytes (s : string) : string :=
  match s with
  | EmptyString => EmptyString
  | String c rest =>
      if Ascii.eqb c " " then String "+" (encode_bytes rest)
      else if unreserved c then String c (encode_bytes rest)
      else String "%" (String (hex_digit (N_of_ascii c / 16))
                         (String (hex_digit (N_of_ascii c mod 16))
                            (encode_bytes rest)))
  end.

Definition encode (s : string) : string := encode_bytes (utf8 s).

Fixpoint serialize (l : list (string * string)) : string :=
  match l with
  | [] => EmptyString
  | (k, v) :: l' =>
      let pair := encode k +:+ "=" +:+ encode v in
      match l' with
      | [] => pair
      | _ :: _ => pair +:+ "&" +:+ serialize l'
      end
  end.

End FormUrlEncoded.

(** [url.searchParams.append(name, value)]: the pair goes to the end of the
    list and the query of the URL becomes the serialization of the list
    (no query when that is empty). *)
Definition searchParams_append (u : URL) (name value : string) : URL :=
  let list := url_searchParams u ++ [(name, value)] in
  let serialized := FormUrlEncoded.serialize list in
  {| url_base := url_base u;
     url_query :=
       if (serialized =? EmptyString)%string then None else Some serialized;
     url_searchParams := list;
     url_fragment := url_fragment u |}.

(** [url.toString()] *)
Definition URL_toString (u : URL) : string :=
  url_base u
  +:+ match url_query u with
      | None => EmptyString
      | Some q => "?" +:+ q
      end
  +:+ match url_fragment u with
      | None => EmptyString
      | Some f => "#" +:+ f
      end.

(** ** [utils/http.ts] *)

Record RequestOptions := {
  method : HttpMethod;
  path : string;
  body : value;
  params : option obj
}.

Module HttpClient.

Record t := { config : ResolvedConfig }.

(** The body of the [forEach] callback of [buildUrl].  A parameter value
    has the declared type [string | number | boolean | undefined], on which
    [String(value)] returns. *)
Definition appendParam (url : URL) (kv : string * value) : URL :=
  if defined kv.2
  then searchParams_append url kv.1 (js_toString kv.2)
  else url.

(** [if (params) { Object.entries(params).forEach(...) }] *)
Definition appendParams (url : URL) (params : option obj) : URL :=
  match params with
  | Some entries => fold_left appendParam entries url
  | None => url
  end.

Definition buildUrl (host : Host) (this : t) (path : string)
    (params : option obj) : outcome string :=
  match URL_new host path (resolvedBaseUrl (config this)) with
  | None =>
      Throw (ThrowTypeError
               {| err_name := "TypeError"; err_message := "Invalid URL" |})
  | Some url => Return (URL_toString (appendParams url params))
  end.

Definition getAuthHeader (host : Host) (this : t) : string :=
  let credentials := apiKey (config this) +:+ ":" in
  let encoded :=
    if btoa_defined host
    then Base64.encode credentials
    else Base64.encode (utf8 credentials) in
  "Basic " +:+ encoded.

Definition is_post_or_patch (m : HttpMethod) : bool :=
  match m with
  | POST | PATCH => true
  | GET | DELETE => false
  end.

(** [text ? JSON.parse(text) : null], inside the [try] whose [catch] stores
    [null]. *)
Definition parseBody (host : Host) (text : option string) : value :=
  match text with
  | None => JNull
  | Some text =>
      if (text =? EmptyString)%string then JNull
      else default JNull (JSON_parse host text)
  end.

(** The [headers] and [fetchOptions] that [request] hands to [fetch]. *)
Definition requestInit (host : Host) (this : t) (options : RequestOptions)
    : RequestInit :=
  let headers :=
    [("Authorization", getAuthHeader host this);
     ("Content-Type", "application/json");
     ("Accept", "application/json")] in
  {| init_method := method options;
     init_headers := headers;
     init_body :=
       if truthy (body options) && is_post_or_patch (method options)
       then Some (JSON_stringify host (body options))
       else None |}.

Definition request (host : Host) (this : t) (options : RequestOptions)
    : outcome value :=
  url ← buildUrl host this (path options) (params options);
  let fetchOptions := requestInit host this options in
  match fetch host url fetchOptions with
  | FetchRejected error =>
      Throw (ThrowPayMongoNetworkError
               "Network error while communicating with PayMongo API" error)
  | FetchResolved response =>
      let responseBody := parseBody host (response_text response) in
      if negb (response_ok response)
      then
        error ← PayMongoError.fromResponse (response_status response) responseBody;
        Throw (ThrowPayMongoError error)
      else Return responseBody
  end.

Definition get (host : Host) (this : t) (path : string) (params : option obj)
    : outcome value :=
  request host this
    {| method := GET; path := path; body := JUndefined; params := params |}.

Definition post (host : Host) (this : t) (path : string) (body : value)
    : outcome value :=
  request host this
    {| method := POST; path := path; body := body; params := None |}.

Definition patch (host : Host) (this : t) (path : string) (body : value)
    : outcome value :=
  request host this
    {| method := PATCH; path := path; body := body; params := None |}.

Definition delete (host : Host) (this : t) (path : string) : outcome value :=
  request host this
    {| method := DELETE; path := path; body := JUndefined; params := None |}.

End HttpClient.

(** ** [resources/Base.ts] *)

Module BaseResource.

Record t := { http : HttpClient.t; basePath : string }.

(** [buildPath(id?, suffix?)]; an empty string counts as not given. *)
Definition buildPath (this : t) (id suffix : option string) : string :=
  let path := basePath this in
  let path :=
    match id with
    | Some (String _ _ as id) => path +:+ "/" +:+ id
    | _ => path
    end in
  match suffix with
  | Some (String _ _ as suffix) => path +:+ "/" +:+ suffix
  | _ => path
  end.

(** The character class [[A-Z]]. *)
Definition is_upper (c : ascii) : bool :=
  ((65 <=? N_of_ascii c) && (N_of_ascii c <=? 90))%N.

(** [letter.toLowerCase()] for a letter matched by [[A-Z]]. *)
Definition to_lower (c : ascii) : ascii := ascii_of_N (N_of_ascii c + 32).

(** [key.replace(/[A-Z]/g, (letter) => `_${letter.toLowerCase()}`)] *)
Fixpoint snakeKey (key : string) : string :=
  match key with
  | EmptyString => EmptyString
  | String c rest =>
      if is_upper c
      then String "_" (String (to_lower c) (snakeKey rest))
      else String c (snakeKey rest)
  end.

(** The value stored under the transformed key: the recursive call when
    [typeof value === 'object' && !Array.isArray(value)], the value itself
    otherwise (arrays included).  The inner fold is the
    [for ... of Object.entries(obj)] loop on a fresh [result]. *)
Fixpoint shapeValue (v : value) : value :=
  match v with
  | JObj o =>
      JObj (fold_left
              (λ result kv,
                 if present kv.2
                 then obj_set result (snakeKey kv.1) (shapeValue kv.2)
                 else result)
              o [])
  | _ => v
  end.

(** One iteration of the loop of [toSnakeCase]. *)
Definition snakeStep (result : obj) (kv : string * value) : obj :=
  if present kv.2
  then obj_set result (snakeKey kv.1) (shapeValue kv.2)
  else result.

Definition toSnakeCase (o : obj) : obj := fold_left snakeStep o [].

Definition wrapBody (attributes : obj) : value :=
  JObj [("data", JObj [("attributes", JObj (toSnakeCase attributes))])].

(** No uppercase ASCII letter occurs in the key. *)
Fixpoint underscore_form (key : string) : bool :=
  match key with
  | EmptyString => true
  | String c rest => negb (is_upper c) && underscore_form rest
  end.



End BaseResource.

(** ** [PayMongo.ts] *)

Module PayMongo.

Definition DEFAULT_BASE_URL : string := "https://api.paymongo.com/v1".

(** Truthiness of an optional string: present and not empty. *)
Definition given (s : option string) : bool :=
  match s with
  | Some s => negb (s =? EmptyString)%string
  | None => false
  end.

(** [a || b] on optional strings, as a string once one of them is given. *)
Definition or_else (a b : option string) : string :=
  if given a then default EmptyString a else default EmptyString b.

Definition startsWith (s prefix : string) : bool := String.prefix prefix s.

(** A word between double quotes, as the error messages print the key
    prefixes. *)
Definition quoted (s : string) : string :=
  String "034"%char s +:+ String "034"%char EmptyString.

Definition resolveConfig (config : PayMongoConfig) : outcome ResolvedConfig :=
  if negb (given (publicKey config)) && negb (given (secretKey config)) then
    Throw (ThrowPayMongoConfigError
             ("PayMongo requires either a publicKey or secretKey. " +:+
              "Use publicKey for client-side operations, secretKey for server-side operations."))
  else
    let apiKey := or_else (secretKey config) (publicKey config) in
    let isPublicKey := negb (given (secretKey config)) && given (publicKey config) in
    if isPublicKey && negb (startsWith apiKey "pk_") then
      Throw (ThrowPayMongoConfigError
               ("Invalid public key format. Public keys should start with " +:+
                quoted "pk_test_" +:+ " or " +:+ quoted "pk_live_" +:+ "."))
    else if negb isPublicKey && negb (startsWith apiKey "sk_") then
      Throw (ThrowPayMongoConfigError
               ("Invalid secret key format. Secret keys should start with " +:+
                quoted "sk_test_" +:+ " or " +:+ quoted "sk_live_" +:+ "."))
    else
      Return {| apiKey := apiKey;
                resolvedBaseUrl :=
                  or_else (baseUrl config) (Some DEFAULT_BASE_URL);
                isPublicKey := isPublicKey |}.

(** A client object.  [identity] tells apart the objects that [new] creates:
    two references are [===] exactly when they carry the same identity. *)
Record t := {
  identity : nat;
  config : ResolvedConfig;
  http : HttpClient.t;
  paymentIntents : BaseResource.t;
  paymentMethods : BaseResource.t;
  payments : BaseResource.t;
  customers : BaseResource.t;
  refunds : BaseResource.t;
  webhooks : BaseResource.t;
  checkoutSessions : BaseResource.t
}.

(** The static field [PayMongo.instance] and the number of client objects
    allocated so far. *)
Record statics := {
  instance : option t;
  allocated : nat
}.

Definition initial : statics := {| instance := None; allocated := 0 |}.

(** [new PayMongo(config)]: the object is allocated, then the constructor
    body runs and may throw out of [resolveConfig]. *)
Definition new (st : statics) (cfg : PayMongoConfig) : outcome t * statics :=
  let this := allocated st in
  let st' := {| instance := instance st; allocated := S (allocated st) |} in
  match resolveConfig cfg with
  | Throw e => (Throw e, st')
  | Return config =>
      let http := {| HttpClient.config := config |} in
      let resource p := {| BaseResource.http := http; BaseResource.basePath := p |} in
      (Return {| identity := this; config := config; http := http;
                 paymentIntents := resource "/payment_intents";
                 paymentMethods := resource "/payment_methods";
                 payments := resource "/payments";
                 customers := resource "/customers";
                 refunds := resource "/refunds";
                 webhooks := resource "/webhooks";
                 checkoutSessions := resource "/checkout_sessions" |},
       st')
  end.

(** [forceNew?: boolean] read as a condition. *)
Definition requested (forceNew : option bool) : bool := default false forceNew.

(** [PayMongo.instance = new PayMongo(config); return PayMongo.instance;]
    When the constructor throws, the assignment does not happen. *)
Definition storeNew (st : statics) (cfg : PayMongoConfig) : outcome t * statics :=
  match new st cfg with
  | (Return created, st') =>
      (Return created,
       {| instance := Some created; allocated := allocated st' |})
  | (Throw e, st') => (Throw e, st')
  end.

Definition getInstance (st : statics) (cfg : PayMongoConfig)
    (forceNew : option bool) : outcome t * statics :=
  match instance st with
  | None => storeNew st cfg
  | Some stored =>
      if requested forceNew then storeNew st cfg else (Return stored, st)
  end.

Definition resetInstance (st : statics) : statics :=
  {| instance := None; allocated := allocated st |}.

(** The stored client, when there is one, is among the objects allocated. *)
Definition well_formed (st : statics) : Prop :=
  match instance st with
  | Some stored => identity stored < allocated st
  | None => True
  end.

Definition isClientSide (this : t) : bool := isPublicKey (config this).

Definition isServerSide (this : t) : bool := negb (isPublicKey (config this)).

End PayMongo.

(** ** A scripted host

    A host for worked examples: [new URL] resolves an absolute path against
    the origin [https://api.paymongo.com], [JSON.parse] knows the texts
    listed in [parsed], [JSON.stringify] answers [text], and [fetch] answers
    [result] to every request. *)
Definition scripted_host (btoa : bool) (parsed : list (string * value))
    (text : string) (result : fetch_result) : Host :=
  {| btoa_defined := btoa;
     URL_new := λ path base,
       match path with
       | String "/" _ =>
           Some {| url_base := "https://api.paymongo.com" +:+ path;
                   url_query := None;
                   url_searchParams := [];
                   url_fragment := None |}
       | _ => None
       end;
     JSON_stringify := λ _, text;
     JSON_parse := λ s, obj_get parsed s;
     fetch := λ _ _, result |}.

Definition sample_client : HttpClient.t :=
  {| HttpClient.config :=
       {| apiKey := "sk_test_abc";
          resolvedBaseUrl := "https://api.paymongo.com/v1";
          isPublicKey := false |} |}.

(** ** Resource clients

    The classes of [resources/]: each binds a base path and shapes one
    request per operation.  A parameter record is the list of its entries;
    a field that the caller leaves out reads as [undefined]. *)

(** [params.k] on a parameter record. *)
Definition prop (params : obj) (k : string) : value :=
  default JUndefined (obj_get params k).

(** [params?.k] on an optional parameter record. *)
Definition opt_prop (params : option obj) (k : string) : value :=
  match params with
  | Some params => prop params k
  | None => JUndefined
  end.

(** [v === 'literal'] *)
Definition is_string (v : value) (literal : string) : bool :=
  match v with
  | JStr s => (s =? literal)%string
  | _ => false
  end.

(** The [TypeError] of a member read on [undefined] or [null] (the
    wording is V8's). *)
Definition cannot_read (v : value) (k : string) : thrown :=
  ThrowTypeError
    {| err_name := "TypeError";
       err_message :=
         "Cannot read properties of " +:+ js_toString v
         +:+ " (reading '" +:+ k +:+ "')" |}.

(** Member read [v.k] on any value, for a name that no built-in prototype
    defines: it throws on [undefined] and [null]. *)
Definition read_member (v : value) (k : string) : outcome value :=
  if present v then Return (js_member v k) else Throw (cannot_read v k).

(** [return { data: response.data, hasMore: response.has_more }] *)
Definition listResult (response : value) : outcome value :=
  data ← read_member response "data";
  Return (JObj [("data", data); ("hasMore", js_member response "has_more")]).

(** [if (params?.k) { queryParams[name] = params.k }] *)
Definition setIfTruthy (queryParams : obj) (params : option obj)
    (k name : string) : obj :=
  if truthy (opt_prop params k)
  then obj_set queryParams name (opt_prop params k)
  else queryParams.

Module PaymentIntents.

Definition createBody (params : obj) : value :=
  BaseResource.wrapBody
    [("amount", prop params "amount");
     ("currency", js_coalesce (prop params "currency") (JStr "PHP"));
     ("paymentMethodAllowed", prop params "paymentMethodAllowed");
     ("description", prop params "description");
     ("statementDescriptor", prop params "statementDescriptor");
     ("metadata", prop params "metadata");
     ("captureType", prop params "captureType");
     ("setupFutureUsage", prop params "setupFutureUsage");
     ("paymentMethodOptions", prop params "paymentMethodOptions")].

Definition create (host : Host) (this : BaseResource.t) (params : obj)
    : outcome value :=
  let body := createBody params in
  response ← HttpClient.post host (BaseResource.http this)
                (BaseResource.buildPath this None None) body;
  read_member response "data".

(** [clientKey ? { client_key: clientKey } : undefined] *)
Definition retrieveParams (clientKey : option string) : option obj :=
  match clientKey with
  | Some (String _ _ as clientKey) => Some [("client_key", JStr clientKey)]
  | _ => None
  end.

Definition retrieve (host : Host) (this : BaseResource.t) (id : string)
    (clientKey : option string) : outcome value :=
  let params := retrieveParams clientKey in
  response ← HttpClient.get host (BaseResource.http this)
                (BaseResource.buildPath this (Some id) None) params;
  read_member response "data".

Definition attachBody (params : obj) : value :=
  BaseResource.wrapBody
    [("paymentMethod", prop params "paymentMethod");
     ("clientKey", prop params "clientKey");
     ("returnUrl", prop params "returnUrl")].

Definition attach (host : Host) (this : BaseResource.t) (id : string)
    (params : obj) : outcome value :=
  let body := attachBody params in
  response ← HttpClient.post host (BaseResource.http this)
                (BaseResource.buildPath this (Some id) (Some "attach")) body;
  read_member response "data".

End PaymentIntents.

Module PaymentMethods.

(** The [attributes] record of [create], after the [if] on card details. *)
Definition createAttributes (params : obj) : obj :=
  let attributes :=
    [("type", prop params "type");
     ("billing", prop params "billing");
     ("metadata", prop params "metadata")] in
  if truthy (prop params "details") && is_string (prop params "type") "card"
  then
    obj_set attributes "details"
      (JObj [("card_number", js_member (prop params "details") "cardNumber");
             ("exp_month", js_member (prop params "details") "expMonth");
             ("exp_year", js_member (prop params "details") "expYear");
             ("cvc", js_member (prop params "details") "cvc")])
  else attributes.

Definition createBody (params : obj) : value :=
  JObj [("data", JObj [("attributes", JObj (createAttributes params))])].

Definition create (host : Host) (this : BaseResource.t) (params : obj)
    : outcome value :=
  let body := createBody params in
  response ← HttpClient.post host (BaseResource.http this)
                (BaseResource.buildPath this None None) body;
  read_member response "data".

Definition retrieve (host : Host) (this : BaseResource.t) (id : string)
    : outcome value :=
  response ← HttpClient.get host (BaseResource.http this)
                (BaseResource.buildPath this (Some id) None) None;
  read_member response "data".

Definition updateBody (params : obj) : value :=
  BaseResource.wrapBody
    [("billing", prop params "billing");
     ("metadata", prop params "metadata")].

Definition update (host : Host) (this : BaseResource.t) (id : string)
    (params : obj) : outcome value :=
  let body := updateBody params in
  response ← HttpClient.patch host (BaseResource.http this)
                (BaseResource.buildPath this (Some id) None) body;
  read_member response "data".

End PaymentMethods.

Module CheckoutSessions.

(** The callback of [params.lineItems.map]. *)
Definition lineItem (item : value) : outcome value :=
  amount ← read_member item "amount";
  Return (JObj [("amount", amount);
                ("currency", js_coalesce (js_member item "currency") (JStr "PHP"));
                ("description", js_member item "description");
                ("images", js_member item "images");
                ("name", js_member item "name");
                ("quantity", js_member item "quantity")]).

Fixpoint mapLineItems (items : list value) : outcome (list value) :=
  match items with
  | [] => Return []
  | item :: rest =>
      first ← lineItem item;
      others ← mapLineItems rest;
      Return (first :: others)
  end.

(** [params.lineItems.map(...)]: a [TypeError] unless [lineItems] is an
    array. *)
Definition lineItems (params : obj) : outcome (list value) :=
  match prop params "lineItems" with
  | JArr items => mapLineItems items
  | JUndefined | JNull => Throw (cannot_read (prop params "lineItems") "map")
  | _ =>
      Throw (ThrowTypeError
               {| err_name := "TypeError";
                  err_message := "params.lineItems.map is not a function" |})
  end.

Definition createBody (params : obj) (lineItems : list value) : value :=
  JObj [("data", JObj [("attributes", JObj
    [("line_items", JArr lineItems);
     ("payment_method_types", prop params "paymentMethodTypes");
     ("success_url", prop params "successUrl");
     ("cancel_url", prop params "cancelUrl");
     ("description", prop params "description");
     ("billing", prop params "billing");
     ("billing_information_fields_editable",
      prop params "billingInformationFieldsEditable");
     ("send_email_receipt", prop params "sendEmailReceipt");
     ("show_description", prop params "showDescription");
     ("show_line_items", prop params "showLineItems");
     ("reference_number", prop params "referenceNumber");
     ("metadata", prop params "metadata")])])].

Definition create (host : Host) (this : BaseResource.t) (params : obj)
    : outcome value :=
  lineItems ← lineItems params;
  let body := createBody params lineItems in
  response ← HttpClient.post host (BaseResource.http this)
                (BaseResource.buildPath this None None) body;
  read_member response "data".

Definition retrieve (host : Host) (this : BaseResource.t) (id : string)
    : outcome value :=
  response ← HttpClient.get host (BaseResource.http this)
                (BaseResource.buildPath this (Some id) None) None;
  read_member response "data".

Definition expire (host : Host) (this : BaseResource.t) (id : string)
    : outcome value :=
  response ← HttpClient.post host (BaseResource.http this)
                (BaseResource.buildPath this (Some id) (Some "expire"))
                JUndefined;
  read_member response "data".

End CheckoutSessions.

Module Payments.

Definition retrieve (host : Host) (this : BaseResource.t) (id : string)
    : outcome value :=
  response ← HttpClient.get host (BaseResource.http this)
                (BaseResource.buildPath this (Some id) None) None;
  read_member response "data".

Definition listQuery (params : option obj) : obj :=
  let queryParams := [] in
  let queryParams := setIfTruthy queryParams params "after" "after" in
  let queryParams := setIfTruthy queryParams params "before" "before" in
  setIfTruthy queryParams params "limit" "limit".

Definition list (host : Host) (this : BaseResource.t) (params : option obj)
    : outcome value :=
  let queryParams := listQuery params in
  response ← HttpClient.get host (BaseResource.http this)
                (BaseResource.buildPath this None None) (Some queryParams);
  listResult response.

End Payments.

Module Customers.

Definition createBody (params : obj) : value :=
  BaseResource.wrapBody
    [("email", prop params "email");
     ("firstName", prop params "firstName");
     ("lastName", prop params "lastName");
     ("phone", prop params "phone");
     ("defaultPaymentMethodId", prop params "defaultPaymentMethodId");
     ("metadata", prop params "metadata")].

Definition create (host : Host) (this : BaseResource.t) (params : obj)
    : outcome value :=
  let body := createBody params in
  response ← HttpClient.post host (BaseResource.http this)
                (BaseResource.buildPath this None None) body;
  read_member response "data".

Definition retrieve (host : Host) (this : BaseResource.t) (id : string)
    : outcome value :=
  response ← HttpClient.get host (BaseResource.http this)
                (BaseResource.buildPath this (Some id) None) None;
  read_member response "data".

Definition listQuery (params : option obj) : obj :=
  let queryParams := [] in
  let queryParams := setIfTruthy queryParams params "after" "after" in
  let queryParams := setIfTruthy queryParams params "before" "before" in
  let queryParams := setIfTruthy queryParams params "limit" "limit" in
  let queryParams := setIfTruthy queryParams params "email" "email" in
  setIfTruthy queryParams params "phone" "phone".

Definition list (host : Host) (this : BaseResource.t) (params : option obj)
    : outcome value :=
  let queryParams := listQuery params in
  response ← HttpClient.get host (BaseResource.http this)
                (BaseResource.buildPath this None None) (Some queryParams);
  listResult response.

Definition updateBody (params : obj) : value :=
  BaseResource.wrapBody
    [("email", prop params "email");
     ("firstName", prop params "firstName");
     ("lastName", prop params "lastName");
     ("phone", prop params "phone");
     ("defaultPaymentMethodId", prop params "defaultPaymentMethodId");
     ("defaultDevice", prop params "defaultDevice");
     ("metadata", prop params "metadata")].

Definition update (host : Host) (this : BaseResource.t) (id : string)
    (params : obj) : outcome value :=
  let body := updateBody params in
  response ← HttpClient.patch host (BaseResource.http this)
                (BaseResource.buildPath this (Some id) None) body;
  read_member response "data".

Definition delete (host : Host) (this : BaseResource.t) (id : string)
    : outcome value :=
  response ← HttpClient.delete host (BaseResource.http this)
                (BaseResource.buildPath this (Some id) None);
  read_member response "data".

Definition getPaymentMethods (host : Host) (this : BaseResource.t)
    (customerId : string) : outcome value :=
  response ← HttpClient.get host (BaseResource.http this)
                (BaseResource.buildPath this (Some customerId)
                   (Some "payment_methods")) None;
  read_member response "data".

Definition deletePaymentMethod (host : Host) (this : BaseResource.t)
    (customerId paymentMethodId : string) : outcome value :=
  response ← HttpClient.delete host (BaseResource.http this)
                (BaseResource.buildPath this (Some customerId)
                   (Some ("payment_methods/" +:+ paymentMethodId)));
  read_member response "data".

End Customers.

Module Refunds.

Definition createBody (params : obj) : value :=
  BaseResource.wrapBody
    [("amount", prop params "amount");
     ("paymentId", prop params "paymentId");
     ("reason", prop params "reason");
     ("notes", prop params "notes");
     ("metadata", prop params "metadata")].

Definition create (host : Host) (this : BaseResource.t) (params : obj)
    : outcome value :=
  let body := createBody params in
  response ← HttpClient.post host (BaseResource.http this)
                (BaseResource.buildPath this None None) body;
  read_member response "data".

Definition retrieve (host : Host) (this : BaseResource.t) (id : string)
    : outcome value :=
  response ← HttpClient.get host (BaseResource.http this)
                (BaseResource.buildPath this (Some id) None) None;
  read_member response "data".

Definition listQuery (params : option obj) : obj :=
  let queryParams := [] in
  let queryParams := setIfTruthy queryParams params "after" "after" in
  let queryParams := setIfTruthy queryParams params "before" "before" in
  let queryParams := setIfTruthy queryParams params "limit" "limit" in
  setIfTruthy queryParams params "paymentId" "payment_id".

Definition list (host : Host) (this : BaseResource.t) (params : option obj)
    : outcome value :=
  let queryParams := listQuery params in
  response ← HttpClient.get host (BaseResource.http this)
                (BaseResource.buildPath this None None) (Some queryParams);
  listResult response.

End Refunds.

Module Webhooks.

Definition createBody (params : obj) : value :=
  BaseResource.wrapBody
    [("url", prop params "url"); ("events", prop params "events")].

Definition create (host : Host) (this : BaseResource.t) (params : obj)
    : outcome value :=
  let body := createBody params in
  response ← HttpClient.post host (BaseResource.http this)
                (BaseResource.buildPath this None None) body;
  read_member response "data".

Definition retrieve (host : Host) (this : BaseResource.t) (id : string)
    : outcome value :=
  response ← HttpClient.get host (BaseResource.http this)
                (BaseResource.buildPath this (Some id) None) None;
  read_member response "data".

Definition list (host : Host) (this : BaseResource.t) : outcome value :=
  response ← HttpClient.get host (BaseResource.http this)
                (BaseResource.buildPath this None None) None;
  listResult response.

Definition updateBody (params : obj) : value :=
  BaseResource.wrapBody
    [("url", prop params "url"); ("events", prop params "events")].

Definition update (host : Host) (this : BaseResource.t) (id : string)
    (params : obj) : outcome value :=
  let body := updateBody params in
  response ← HttpClient.patch host (BaseResource.http this)
                (BaseResource.buildPath this (Some id) None) body;
  read_member response "data".

Definition enable (host : Host) (this : BaseResource.t) (id : string)
    : outcome value :=
  response ← HttpClient.post host (BaseResource.http this)
                (BaseResource.buildPath this (Some id) (Some "enable"))
                JUndefined;
  read_member response "data".

Definition disable (host : Host) (this : BaseResource.t) (id : string)
    : outcome value :=
  response ← HttpClient.post host (BaseResource.http this)
                (BaseResource.buildPath this (Some id) (Some "disable"))
                JUndefined;
  read_member response "data".

End Webhooks.

(** ** Notions used to state properties *)

(** The key has no underscore: a plain camelCase name. *)
Fixpoint no_underscore (key : string) : bool :=
  match key with
  | EmptyString => true
  | String c rest => negb (Ascii.eqb c "_") && no_underscore rest
  end.

(** The strings of the list are pairwise different. *)
Fixpoint distinct (l : list string) : bool :=
  match l with
  | [] => true
  | x :: rest => negb (existsb (String.eqb x) rest) && distinct rest
  end.

(** A value already in the form the API expects: in every object reached
    through objects, the keys are pairwise different, free of uppercase
    letters and other than [__proto__], and no field is [undefined] or
    [null]. *)
Fixpoint api_form (v : value) : bool :=
  match v with
  | JObj o =>
      distinct (map fst o)
      && forallb (λ kv, BaseResource.underscore_form kv.1
                        && negb (kv.1 =? "__proto__")%string
                        && present kv.2
                        && api_form kv.2) o
  | _ => true
  end.

(** The entries that the loop of [toSnakeCase] stores: those with a value
    other than [undefined] and [null] whose transformed key is not
    [__proto__]. *)
Definition stored (kv : string * value) : bool :=
  present kv.2 && negb (BaseResource.snakeKey kv.1 =? "__proto__")%string.

(** The key of a resolved configuration carries the prefix of its mode. *)
Definition key_matches_mode (config : ResolvedConfig) : bool :=
  if isPublicKey config
  then PayMongo.startsWith (apiKey config) "pk_"
  else PayMongo.startsWith (apiKey config) "sk_".

(** A call to one of the two static methods of [PayMongo], and the effect
    of a sequence of such calls on the static field. *)
Inductive static_call :=
| CallGetInstance (config : PayMongoConfig) (forceNew : option bool)
| CallResetInstance.

Definition after_call (st : PayMongo.statics) (c : static_call)
    : PayMongo.statics :=
  match c with
  | CallGetInstance config forceNew => (PayMongo.getInstance st config forceNew).2
  | CallResetInstance => PayMongo.resetInstance st
  end.

Definition after_calls (calls : list static_call) : PayMongo.statics :=
  fold_left after_call calls PayMongo.initial.

(** The headers that every request carries. *)
Definition standard_headers (host : Host) (this : HttpClient.t)
    : list (string * string) :=
  [("Authorization", HttpClient.getAuthHeader host this);
   ("Content-Type", "application/json");
   ("Accept", "application/json")].

(** The value of the header [name] in a list of headers. *)
Fixpoint header_value (headers : list (string * string)) (name : string)
    : option string :=
  match headers with
  | [] => None
  | (name', v) :: rest =>
      if (name' =? name)%string then Some v else header_value rest name
  end.

(** A host as [scripted_host], in front of a server that looks at the
    [Authorization] header: a request that carries [expected] is answered
    with [answer], any other with status 401. *)
Definition guarded_host (expected : string) (answer : Response) : Host :=
  let host := scripted_host true [] EmptyString (FetchResolved answer) in
  {| btoa_defined := btoa_defined host;
     URL_new := URL_new host;
     JSON_stringify := JSON_stringify host;
     JSON_parse := JSON_parse host;
     fetch := λ _ init,
       if decide (header_value (init_headers init) "Authorization" = Some expected)
       then FetchResolved answer
       else FetchResolved {| response_status := 401; response_text := None |} |}.

(** A response body whose first detail has an object for its detail text,
    with an own entry [toString]: the JSON text and what [JSON.parse] makes
    of it. *)
Definition detail_object_text : string :=
  "{" +:+ PayMongo.quoted "errors" +:+ ":[{" +:+ PayMongo.quoted "detail"
  +:+ ":{" +:+ PayMongo.quoted "toString" +:+ ":1}}]}".

Definition detail_object_body : value :=
  JObj [("errors", JArr [JObj [("detail", JObj [("toString", JNum 1)])]])].

(** * Properties *)

Import BaseResource.

(** ** Induction on values *)

(** Structural induction that reaches the elements of arrays and the field
    values of objects. *)
Lemma value_nested_ind (P : value → Prop) :
  P JUndefined → P JNull → (∀ b, P (JBool b)) → (∀ n, P (JNum n)) →
  (∀ s, P (JStr s)) →
  (∀ l, Forall P l → P (JArr l)) →
  (∀ o, Forall (λ kv, P kv.2) o → P (JObj o)) →
  ∀ v, P v.
Proof.
  intros HU HN HB HZ HS HA HO.
  fix IH 1. intros v. destruct v as [| |b|n|s|l|o].
  - exact HU.
  - exact HN.
  - exact (HB b).
  - exact (HZ n).
  - exact (HS s).
  - apply HA. induction l as [|x l IHl]; constructor; [apply IH | exact IHl].
  - apply HO. induction o as [|kv o IHo]; constructor; [apply IH | exact IHo].
Qed.

(** ** Facts about object reads and writes *)

Implicit Types (o : obj) (k : string) (v : value).

Lemma obj_get_put_eq o k v : obj_get (obj_put o k v) k = Some v.
Proof.
  induction o as [|[k' v'] o IH]; simpl.
  - by rewrite String.eqb_refl.
  - destruct (String.eqb_spec k' k) as [->|Hne]; simpl.
    + by rewrite String.eqb_refl.
    + by rewrite (proj2 (String.eqb_neq k' k) Hne).
Qed.

Lemma obj_get_put_ne o k k' v :
  k ≠ k' → obj_get (obj_put o k v) k' = obj_get o k'.
Proof.
  intros Hne. induction o as [|[k0 v0] o IH]; simpl.
  - by rewrite (proj2 (String.eqb_neq k k') Hne).
  - destruct (String.eqb_spec k0 k) as [->|Hk]; simpl.
    + by rewrite (proj2 (String.eqb_neq k k') Hne).
    + by rewrite IH.
Qed.

Lemma obj_get_Some_elem o k v : obj_get o k = Some v → (k, v) ∈ o.
Proof.
  induction o as [|[k' v'] o IH]; simpl; [done|].
  destruct (String.eqb_spec k' k) as [->|Hk].
  - intros [= ->]. left.
  - intros H. right. by apply IH.
Qed.

Lemma obj_get_None o k : obj_get o k = None ↔ k ∉ keys o.
Proof.
  induction o as [|[k' v'] o IH]; simpl.
  - split; [intros _; apply not_elem_of_nil | done].
  - rewrite not_elem_of_cons.
    destruct (String.eqb_spec k' k) as [->|Hk]; split.
    + done.
    + by intros [? _].
    + intros H. split; [congruence | by apply IH].
    + intros [_ H]. by apply IH.
Qed.

Lemma has_own_false o k : has_own o k = false ↔ k ∉ keys o.
Proof.
  rewrite <- obj_get_None. unfold has_own. by destruct (obj_get o k).
Qed.

Lemma obj_put_Forall (Q : string * value → Prop) o k v :
  Forall Q o → Q (k, v) → Forall Q (obj_put o k v).
Proof.
  intros Ho Hkv. induction Ho as [|[k' v'] o Hx Ho IH]; simpl.
  - by constructor.
  - destruct (k' =? k)%string; by constructor.
Qed.

Lemma obj_put_fresh o k v : k ∉ keys o → obj_put o k v = o ++ [(k, v)].
Proof.
  induction o as [|[k' v'] o IH]; simpl; [done|].
  rewrite not_elem_of_cons. intros [Hne Hnot].
  rewrite (proj2 (String.eqb_neq k' k)) by congruence.
  by rewrite IH.
Qed.

Lemma keys_obj_put_elem o k v k' :
  k' ∈ keys (obj_put o k v) ↔ k' = k ∨ k' ∈ keys o.
Proof.
  induction o as [|[k0 v0] o IH]; simpl.
  - rewrite list_elem_of_singleton. split; [by left | intros [?|H]; [done|]].
    by apply elem_of_nil in H.
  - destruct (String.eqb_spec k0 k) as [->|Hk]; simpl;
      rewrite !elem_of_cons; [tauto|]. rewrite IH. tauto.
Qed.

Lemma obj_put_NoDup o k v : NoDup (keys o) → NoDup (keys (obj_put o k v)).
Proof.
  induction o as [|[k0 v0] o IH]; simpl.
  - intros _. apply NoDup_singleton.
  - rewrite NoDup_cons. intros [Hnot Hnd].
    destruct (String.eqb_spec k0 k) as [->|Hk]; simpl; rewrite NoDup_cons.
    + done.
    + split; [|by apply IH]. rewrite keys_obj_put_elem. intros [?|?]; done.
Qed.

(** An assignment either defines the entry or, at the name [__proto__]
    that is not an own key, leaves the entries as they are. *)
Lemma obj_set_ordinary o k v : k ≠ "__proto__" → obj_set o k v = obj_put o k v.
Proof.
  intros Hk. unfold obj_set. by rewrite (proj2 (String.eqb_neq _ _) Hk).
Qed.

Lemma obj_set_proto o v :
  "__proto__" ∉ keys o → obj_set o "__proto__" v = o.
Proof.
  intros Hnot. unfold obj_set. by rewrite (proj2 (has_own_false _ _) Hnot).
Qed.

Lemma obj_set_cases o k v : obj_set o k v = o ∨ obj_set o k v = obj_put o k v.
Proof.
  unfold obj_set. destruct (_ && _); [by left | by right].
Qed.

Lemma obj_get_set_eq o k v :
  k ≠ "__proto__" → obj_get (obj_set o k v) k = Some v.
Proof. intros Hk. rewrite obj_set_ordinary by done. apply obj_get_put_eq. Qed.

Lemma obj_get_set_ne o k k' v :
  k ≠ k' → obj_get (obj_set o k v) k' = obj_get o k'.
Proof.
  intros Hne. destruct (obj_set_cases o k v) as [-> | ->]; [done|].
  by apply obj_get_put_ne.
Qed.

Lemma obj_set_fresh o k v :
  k ≠ "__proto__" → k ∉ keys o → obj_set o k v = o ++ [(k, v)].
Proof.
  intros Hk Hnot. rewrite obj_set_ordinary by done. by apply obj_put_fresh.
Qed.

Lemma obj_set_NoDup o k v : NoDup (keys o) → NoDup (keys (obj_set o k v)).
Proof.
  intros Hnd. destruct (obj_set_cases o k v) as [-> | ->]; [done|].
  by apply obj_put_NoDup.
Qed.

Lemma obj_set_no_proto o k v :
  "__proto__" ∉ keys o → "__proto__" ∉ keys (obj_set o k v).
Proof.
  intros Hnot. destruct (decide (k = "__proto__")) as [->|Hk].
  - by rewrite obj_set_proto.
  - rewrite obj_set_ordinary by done. rewrite keys_obj_put_elem.
    intros [?|?]; [congruence | done].
Qed.

Lemma obj_set_Forall (Q : string * value → Prop) o k v :
  "__proto__" ∉ keys o → Forall Q o → (k ≠ "__proto__" → Q (k, v)) →
  Forall Q (obj_set o k v).
Proof.
  intros Hnot Ho Hkv. destruct (decide (k = "__proto__")) as [->|Hk].
  - by rewrite obj_set_proto.
  - rewrite obj_set_ordinary by done. apply obj_put_Forall; auto.
Qed.


(** ** The key transform *)

Lemma is_upper_to_lower c : is_upper c = true → is_upper (to_lower c) = false.
Proof.
  destruct c as [[] [] [] [] [] [] [] []]; vm_compute; congruence.
Qed.

Lemma snakeKey_underscore_form key : underscore_form (snakeKey key) = true.
Proof.
  induction key as [|c rest IH]; simpl; [done|].
  destruct (is_upper c) eqn:Hc; simpl.
  - by rewrite (is_upper_to_lower c Hc), IH.
  - by rewrite Hc, IH.
Qed.

Lemma snakeKey_fixed key : underscore_form key = true → snakeKey key = key.
Proof.
  induction key as [|c rest IH]; simpl; [done|].
  intros [Hc Hrest]%andb_true_iff.
  apply negb_true_iff in Hc. rewrite Hc. by rewrite IH.
Qed.

Lemma snakeKey_idempotent key : snakeKey (snakeKey key) = snakeKey key.
Proof. apply snakeKey_fixed, snakeKey_underscore_form. Qed.

(** ** The loop of [toSnakeCase] *)

Lemma shapeValue_object o : shapeValue (JObj o) = JObj (toSnakeCase o).
Proof. reflexivity. Qed.

Lemma shapeValue_present v : present (shapeValue v) = present v.
Proof. by destruct v. Qed.

Lemma toSnakeCase_snoc o kv :
  toSnakeCase (o ++ [kv]) = snakeStep (toSnakeCase o) kv.
Proof. unfold toSnakeCase. by rewrite fold_left_app. Qed.

(** The loop never gives its result an own entry [__proto__]. *)
Lemma fold_snakeStep_no_proto o acc :
  "__proto__" ∉ keys acc → "__proto__" ∉ keys (fold_left snakeStep o acc).
Proof.
  revert acc. induction o as [|[k v] o IH]; intros acc Hacc; simpl; [done|].
  apply IH. unfold snakeStep. simpl.
  destruct (present v); [by apply obj_set_no_proto | done].
Qed.

Lemma toSnakeCase_no_proto o : "__proto__" ∉ keys (toSnakeCase o).
Proof. apply fold_snakeStep_no_proto, not_elem_of_nil. Qed.

Lemma toSnakeCase_proto_absent o : obj_get (toSnakeCase o) "__proto__" = None.
Proof. apply obj_get_None, toSnakeCase_no_proto. Qed.

(** What holds of every entry the loop can write holds of the result. *)
Lemma toSnakeCase_Forall (Q : string * value → Prop) o :
  (∀ k v, (k, v) ∈ o → present v = true → snakeKey k ≠ "__proto__" →
          Q (snakeKey k, shapeValue v)) →
  Forall Q (toSnakeCase o).
Proof.
  induction o as [|[k v] o IH] using rev_ind; intros HQ.
  - constructor.
  - rewrite toSnakeCase_snoc. unfold snakeStep. simpl.
    assert (Forall Q (toSnakeCase o)) as Ho.
    { apply IH. intros k' v' Hin. apply HQ. apply elem_of_app. by left. }
    destruct (present v) eqn:Hv; [|done].
    apply obj_set_Forall; [apply toSnakeCase_no_proto | done |].
    apply HQ; [|done].
    apply elem_of_app. right. apply list_elem_of_singleton. done.
Qed.

Lemma toSnakeCase_NoDup o : NoDup (keys (toSnakeCase o)).
Proof.
  induction o as [|[k v] o IH] using rev_ind.
  - apply NoDup_nil_2.
  - rewrite toSnakeCase_snoc. unfold snakeStep. simpl.
    destruct (present v); [by apply obj_set_NoDup | done].
Qed.

(** A key is in the result exactly when it is not [__proto__] and a present
    entry maps to it. *)
Lemma toSnakeCase_has_key o k' :
  is_Some (obj_get (toSnakeCase o) k') ↔
  ∃ k v, (k, v) ∈ o ∧ present v = true ∧ snakeKey k = k' ∧ k' ≠ "__proto__".
Proof.
  destruct (decide (k' = "__proto__")) as [->|Hproto].
  { rewrite toSnakeCase_proto_absent. split; [by intros [? [=]]|].
    by intros (k & v & _ & _ & _ & ?). }
  induction o as [|[k v] o IH] using rev_ind.
  - simpl. split; [by intros [? [=]] | intros (k & v & Hin & _)].
    by apply elem_of_nil in Hin.
  - rewrite toSnakeCase_snoc. unfold snakeStep. simpl.
    assert ((∃ k0 v0, (k0, v0) ∈ o ++ [(k, v)] ∧ present v0 = true
                      ∧ snakeKey k0 = k' ∧ k' ≠ "__proto__")
            ↔ (∃ k0 v0, (k0, v0) ∈ o ∧ present v0 = true
                        ∧ snakeKey k0 = k' ∧ k' ≠ "__proto__")
              ∨ (present v = true ∧ snakeKey k = k')) as ->.
    { split.
      - intros (k0 & v0 & Hin & Hp & Hk & _). apply elem_of_app in Hin as [Hin|Hin].
        + left. eauto 6.
        + apply list_elem_of_singleton in Hin as [= -> ->]. by right.
      - intros [(k0 & v0 & Hin & Hp & Hk)|[Hp Hk]].
        + exists k0, v0. split; [|done]. apply elem_of_app. by left.
        + exists k, v. split; [|done]. apply elem_of_app. right.
          by apply list_elem_of_singleton. }
    rewrite <- IH. destruct (present v) eqn:Hv.
    + destruct (decide (snakeKey k = k')) as [<-|Hne].
      * rewrite obj_get_set_eq by done. split; [by right | by eexists].
      * rewrite obj_get_set_ne by done. split; [by left | by intros [?|[_ ?]]].
    + split; [by left | by intros [?|[? _]]].
Qed.

(** Entries that the loop skips, or that write another key, leave a key as
    it was. *)
Lemma fold_snakeStep_other post acc k' :
  (∀ k v, (k, v) ∈ post → present v = true → snakeKey k ≠ k') →
  obj_get (fold_left snakeStep post acc) k' = obj_get acc k'.
Proof.
  revert acc. induction post as [|[k v] post IH]; intros acc Hpost; simpl; [done|].
  rewrite IH.
  - unfold snakeStep. simpl. destruct (present v) eqn:Hv; [|done].
    apply obj_get_set_ne. apply (Hpost k v); [left | done].
  - intros k0 v0 Hin. apply Hpost. by right.
Qed.

(** The last present entry written under a key other than [__proto__]
    decides its value. *)
Lemma toSnakeCase_last_write pre k v post :
  present v = true → snakeKey k ≠ "__proto__" →
  (∀ k2 v2, (k2, v2) ∈ post → present v2 = true → snakeKey k2 ≠ snakeKey k) →
  obj_get (toSnakeCase (pre ++ (k, v) :: post)) (snakeKey k) = Some (shapeValue v).
Proof.
  intros Hv Hk Hpost. unfold toSnakeCase. rewrite fold_left_app. simpl.
  rewrite fold_snakeStep_other by done.
  unfold snakeStep at 1. simpl. rewrite Hv. by apply obj_get_set_eq.
Qed.

(** ** Values that the transform leaves alone *)

Lemma fold_snakeStep_fixed o acc :
  NoDup (keys acc ++ keys o) →
  Forall (λ kv, underscore_form kv.1 = true ∧ kv.1 ≠ "__proto__"
                ∧ present kv.2 = true ∧ shapeValue kv.2 = kv.2) o →
  fold_left snakeStep o acc = acc ++ o.
Proof.
  revert acc. induction o as [|[k v] o IH]; intros acc Hnd Hall; simpl.
  - by rewrite app_nil_r.
  - apply Forall_cons in Hall as [(Hk & Hproto & Hp & Hs) Hall]. simpl in *.
    unfold snakeStep at 2. simpl. rewrite Hp, Hs, (snakeKey_fixed k Hk).
    assert (k ∉ keys acc) as Hfresh.
    { apply NoDup_app in Hnd as (_ & Hdisj & _). intros Hin.
      apply (Hdisj k Hin). left. }
    rewrite (obj_set_fresh acc k v Hproto Hfresh).
    rewrite IH; [by rewrite <- app_assoc | | done].
    unfold keys in *. rewrite map_app. simpl. by rewrite <- app_assoc.
Qed.

Lemma toSnakeCase_fixed o :
  NoDup (keys o) →
  Forall (λ kv, underscore_form kv.1 = true ∧ kv.1 ≠ "__proto__"
                ∧ present kv.2 = true ∧ shapeValue kv.2 = kv.2) o →
  toSnakeCase o = o.
Proof. intros Hnd Hall. unfold toSnakeCase. by rewrite fold_snakeStep_fixed. Qed.

Lemma shapeValue_idempotent v : shapeValue (shapeValue v) = shapeValue v.
Proof.
  induction v as [| | | | | l _ | o IH] using value_nested_ind; try done.
  rewrite !shapeValue_object. f_equal.
  apply toSnakeCase_fixed; [apply toSnakeCase_NoDup|].
  apply toSnakeCase_Forall. intros k v Hin Hv Hproto. simpl.
  split; [apply snakeKey_underscore_form|].
  split; [done|].
  split; [by rewrite shapeValue_present|].
  rewrite Forall_forall in IH. apply (IH (k, v) Hin).
Qed.



(** ** Request-body shaping *)

Example snakeKey_paymentMethodAllowed :
  snakeKey "paymentMethodAllowed" = "payment_method_allowed".
Proof. reflexivity. Qed.

Example toSnakeCase_sample :
  toSnakeCase [("returnUrl", JStr "u"); ("clientKey", JNull);
               ("billing", JObj [("postalCode", JStr "1"); ("line2", JUndefined)]);
               ("lineItems", JArr [JObj [("unitAmount", JNull)]])]
  = [("return_url", JStr "u");
     ("billing", JObj [("postal_code", JStr "1")]);
     ("line_items", JArr [JObj [("unitAmount", JNull)]])].
Proof. reflexivity. Qed.

Example toSnakeCase_proto_key :
  toSnakeCase [("a", JNum 1); ("__proto__", JObj [("fooBar", JNum 2)]);
               ("_Proto__", JStr "x"); ("b", JNum 3)]
  = [("a", JNum 1); ("b", JNum 3)].
Proof. reflexivity. Qed.




(** C2.  Applying [toSnakeCase] twice gives what applying it once gives; a
    key with no uppercase letter is left as it is, so the key transform is
    idempotent; the value of a field that is a plain object is the
    transform of that object, and the value of a field that is an array is
    the array itself, elements untouched.  (The field meant is the last
    one in the record that is written under its transformed key, and that
    key is not [__proto__], under which nothing is stored.) *)
Theorem toSnakeCase_idempotent_recursive_not_arrays (params : obj) :
  toSnakeCase (toSnakeCase params) = toSnakeCase params
  ∧ (∀ key, underscore_form key = true → snakeKey key = key)
  ∧ (∀ key, snakeKey (snakeKey key) = snakeKey key)
  ∧ (∀ pre k inner post,
       params = pre ++ (k, JObj inner) :: post →
       snakeKey k ≠ "__proto__" →
       (∀ k2 v2, (k2, v2) ∈ post → present v2 = true → snakeKey k2 ≠ snakeKey k) →
       obj_get (toSnakeCase params) (snakeKey k) = Some (JObj (toSnakeCase inner)))
  ∧ (∀ pre k elements post,
       params = pre ++ (k, JArr elements) :: post →
       snakeKey k ≠ "__proto__" →
       (∀ k2 v2, (k2, v2) ∈ post → present v2 = true → snakeKey k2 ≠ snakeKey k) →
       obj_get (toSnakeCase params) (snakeKey k) = Some (JArr elements))
  ∧ obj_get (toSnakeCase params) "__proto__" = None.
Proof.
  split; [|split; [|split; [|split; [|split]]]].
  - pose proof (shapeValue_idempotent (JObj params)) as H.
    rewrite !shapeValue_object in H. by injection H.
  - apply snakeKey_fixed.
  - apply snakeKey_idempotent.
  - intros pre k inner post -> Hk Hpost.
    by rewrite (toSnakeCase_last_write pre k (JObj inner) post).
  - intros pre k elements post -> Hk Hpost.
    by rewrite (toSnakeCase_last_write pre k (JArr elements) post).
  - apply toSnakeCase_proto_absent.
Qed.

Lemma toSnakeCase_idempotent_recursive_not_arrays_witness :
  let params :=
    [("amount", JNum 10000);
     ("billing", JObj [("postalCode", JStr "1000"); ("line2", JNull)]);
     ("lineItems", JArr [JObj [("unitAmount", JNull)]; JNull]);
     ("return_url", JStr "https://example.test")] in
  toSnakeCase (toSnakeCase params) = toSnakeCase params
  ∧ snakeKey "return_url" = "return_url"
  ∧ obj_get (toSnakeCase params) "billing"
      = Some (JObj (toSnakeCase [("postalCode", JStr "1000"); ("line2", JNull)]))
  ∧ obj_get (toSnakeCase params) "line_items"
      = Some (JArr [JObj [("unitAmount", JNull)]; JNull]).
Proof.
  intros params.
  destruct (toSnakeCase_idempotent_recursive_not_arrays params)
    as (Hidem & Hfixed & _ & Hobj & Harr & _).
  split; [exact Hidem|].
  split; [apply Hfixed; reflexivity|].
  split.
  - apply (Hobj [("amount", JNum 10000)] "billing"
             [("postalCode", JStr "1000"); ("line2", JNull)]
             [("lineItems", JArr [JObj [("unitAmount", JNull)]; JNull]);
              ("return_url", JStr "https://example.test")]);
      [reflexivity | discriminate |].
    intros k2 v2 Hin _.
    apply elem_of_cons in Hin as [[= -> ->]|Hin]; [vm_compute; discriminate|].
    apply list_elem_of_singleton in Hin as [= -> ->]. vm_compute; discriminate.
  - apply (Harr [("amount", JNum 10000);
                 ("billing", JObj [("postalCode", JStr "1000"); ("line2", JNull)])]
             "lineItems" [JObj [("unitAmount", JNull)]; JNull]
             [("return_url", JStr "https://example.test")]);
      [reflexivity | discriminate |].
    intros k2 v2 Hin _.
    apply list_elem_of_singleton in Hin as [= -> ->]. vm_compute; discriminate.
Defined.

(** ** [PayMongoError.fromResponse] *)

Example fromResponse_parameter_invalid :
  let body :=
    JObj [("errors",
           JArr [JObj [("code", JStr "parameter_invalid");
                       ("detail", JStr "amount is required")]])] in
  PayMongoError.fromResponse 400 body
  = Return {| PayMongoError.message := "amount is required";
              PayMongoError.status := 400;
              PayMongoError.code := JStr "parameter_invalid";
              PayMongoError.errors :=
                JArr [JObj [("code", JStr "parameter_invalid");
                            ("detail", JStr "amount is required")]];
              PayMongoError.rawResponse := body |}.
Proof. reflexivity. Qed.

Example fromResponse_empty_body :
  PayMongoError.fromResponse 502 JNull
  = Return {| PayMongoError.message := "PayMongo API error (status 502)";
              PayMongoError.status := 502;
              PayMongoError.code := JStr "unknown_error";
              PayMongoError.errors := JArr [];
              PayMongoError.rawResponse := JNull |}.
Proof. reflexivity. Qed.

Example fromResponse_detail_without_toString :
  PayMongoError.fromResponse 400
    (JObj [("errors", JArr [JObj [("detail", JObj [("toString", JNum 1)])]])])
  = Throw (ThrowTypeError cannot_convert).
Proof. reflexivity. Qed.

Example fromResponse_detail_plain_object :
  ∃ e, PayMongoError.fromResponse 400
         (JObj [("errors", JArr [JObj [("detail", JObj [("field", JStr "amount")])]])])
       = Return e
       ∧ PayMongoError.message e = "[object Object]".
Proof. eexists. split; reflexivity. Qed.

Lemma js_coalesce_present v d : present v = true → js_coalesce v d = v.
Proof. unfold js_coalesce. by intros ->. Qed.

Lemma js_coalesce_absent v d : present v = false → js_coalesce v d = d.
Proof. unfold js_coalesce. by intros ->. Qed.

(** The only thing a conversion to string throws is the [TypeError] of
    OrdinaryToPrimitive. *)
Lemma ToString_throws v e :
  ToString v = Throw e → e = ThrowTypeError cannot_convert.
Proof.
  revert e.
  induction v as [| | | | | l IH | o _] using value_nested_ind; intros e;
    try discriminate.
  - cbn [ToString]. induction IH as [|x l Hx _ IHl]; [discriminate|].
    destruct (present x).
    + destruct (ToString x) as [sx|ex] eqn:Ex; cbn [mbind outcome_bind].
      * destruct l as [|y l]; [discriminate|].
        match goal with
        | |- context [mbind _ ?m] => destruct m as [rest|er] eqn:Er
        end; cbn [mbind outcome_bind]; [discriminate|].
        intros [= <-]. by apply IHl.
      * intros [= <-]. by apply Hx.
    + cbn [mbind outcome_bind].
      destruct l as [|y l]; [discriminate|].
      match goal with
      | |- context [mbind _ ?m] => destruct m as [rest|er] eqn:Er
      end; cbn [mbind outcome_bind]; [discriminate|].
      intros [= <-]. by apply IHl.
  - cbn [ToString]. destruct (has_own o "toString"); [|discriminate].
    by intros [= <-].
Qed.

(** What ToString returns is the string of [js_toString]. *)
Lemma ToString_returns v r : ToString v = Return r → r = js_toString v.
Proof.
  revert r.
  induction v as [| | | | | l IH | o _] using value_nested_ind; intros r;
    try (by intros [= <-]).
  - cbn [ToString js_toString]. revert r.
    induction IH as [|x l Hx _ IHl]; intros r; [by intros [= <-]|].
    assert (∀ sx, (if present x then ToString x else Return EmptyString) = Return sx →
                  sx = (if present x then js_toString x else EmptyString)) as Hsx.
    { intros sx. destruct (present x); [apply Hx | by intros [= <-]]. }
    destruct (if present x then ToString x else Return EmptyString) as [sx|ex];
      cbn [mbind outcome_bind]; [|discriminate].
    rewrite <- (Hsx sx eq_refl).
    destruct l as [|y l]; [by intros [= <-]|].
    match goal with
    | |- context [mbind _ ?m] => destruct m as [rest|er] eqn:Er
    end; cbn [mbind outcome_bind]; [|discriminate].
    intros [= <-]. by rewrite <- (IHl rest eq_refl).
  - cbn [ToString js_toString]. destruct (has_own o "toString"); [discriminate|].
    by intros [= <-].
Qed.

(** [fromResponse] builds the error exactly when the conversion of the
    message returns. *)
Lemma fromResponse_outcome status body :
  (∃ e, PayMongoError.fromResponse status body = Return e)
  ∨ PayMongoError.fromResponse status body = Throw (ThrowTypeError cannot_convert).
Proof.
  unfold PayMongoError.fromResponse.
  match goal with
  | |- context [mbind _ (ToString ?m)] => destruct (ToString m) as [text|e] eqn:E
  end; cbn [mbind outcome_bind mret outcome_ret].
  - left. by eexists.
  - right. by rewrite (ToString_throws _ _ E).
Qed.

Lemma fromResponse_throws status body e :
  PayMongoError.fromResponse status body = Throw e →
  e = ThrowTypeError cannot_convert.
Proof.
  destruct (fromResponse_outcome status body) as [[e' ->]| ->]; [discriminate|].
  by intros [= <-].
Qed.

Lemma fromResponse_status status body e :
  PayMongoError.fromResponse status body = Return e →
  PayMongoError.status e = status.
Proof.
  unfold PayMongoError.fromResponse.
  match goal with
  | |- context [mbind _ (ToString ?m)] => destruct (ToString m) as [text|t]
  end; cbn [mbind outcome_bind mret outcome_ret]; [|discriminate].
  by intros [= <-].
Qed.

(** The error is built when the detail text of the first detail is a
    string or is lacking. *)
Lemma fromResponse_builds status body :
  let first := js_index0 (js_coalesce (js_opt_member body "errors") (JArr [])) in
  (∃ d, js_opt_member first "detail" = JStr d)
  ∨ present (js_opt_member first "detail") = false →
  ∃ e, PayMongoError.fromResponse status body = Return e.
Proof.
  intros first Hd. unfold PayMongoError.fromResponse. fold first.
  destruct Hd as [[d Hd]|Hd].
  - rewrite Hd. rewrite (js_coalesce_present (JStr d)) by done. by eexists.
  - rewrite (js_coalesce_absent (js_opt_member first "detail")) by done.
    by eexists.
Qed.

(** C3, as the code has it.  [fromResponse] either builds an error or
    throws the [TypeError] of the conversion of the message to a string.
    An error that is built carries the status and the body; its [errors] is
    the list the body gives under [errors]; when that list has a first
    detail, [code] is the detail's code and [message] its detail text, each
    replaced by its fallback when the detail lacks it; when the list is
    empty or the body gives none, [errors] is the empty list, [code] is
    [unknown_error] and [message] is the fallback
    [PayMongo API error (status N)], with [N] the status in decimal (for a
    status that is a safe integer).  The error is built whenever the detail
    text of the first detail is a string or is lacking, and whenever there
    is no first detail; it is not built, and the [TypeError] is thrown,
    when the detail text is an object with an own [toString] entry.  For
    status 400 and the body
    [{errors: [{code: 'parameter_invalid', detail: 'amount is required'}]}]
    the error has that code, that message and one listed detail. *)
Theorem fromResponse_exposes (status : Z) (body : value) :
  let listed := js_opt_member body "errors" in
  let fallback :=
    "PayMongo API error (status " +:+ NilZero.string_of_int (Z.to_int status) +:+ ")" in
  (∀ e, PayMongoError.fromResponse status body = Return e →
     PayMongoError.status e = status
     ∧ PayMongoError.rawResponse e = body
     ∧ (present listed = true → PayMongoError.errors e = listed)
     ∧ (∀ first rest,
          listed = JArr (first :: rest) →
          (∀ c, js_opt_member first "code" = JStr c →
                PayMongoError.code e = JStr c)
          ∧ (present (js_opt_member first "code") = false →
             PayMongoError.code e = JStr "unknown_error")
          ∧ (∀ d, js_opt_member first "detail" = JStr d →
                  PayMongoError.message e = d)
          ∧ (present (js_opt_member first "detail") = false →
             safe_integer status = true →
             PayMongoError.message e = fallback))
     ∧ (listed = JArr [] ∨ present listed = false →
          PayMongoError.errors e = JArr []
          ∧ PayMongoError.code e = JStr "unknown_error"
          ∧ (safe_integer status = true → PayMongoError.message e = fallback)))
  ∧ ((∃ e, PayMongoError.fromResponse status body = Return e)
     ∨ PayMongoError.fromResponse status body = Throw (ThrowTypeError cannot_convert))
  ∧ (∀ first rest,
       listed = JArr (first :: rest) →
       (∃ d, js_opt_member first "detail" = JStr d)
       ∨ present (js_opt_member first "detail") = false →
       ∃ e, PayMongoError.fromResponse status body = Return e)
  ∧ (listed = JArr [] ∨ present listed = false →
       ∃ e, PayMongoError.fromResponse status body = Return e)
  ∧ (∀ first rest o,
       listed = JArr (first :: rest) →
       js_opt_member first "detail" = JObj o →
       has_own o "toString" = true →
       PayMongoError.fromResponse status body = Throw (ThrowTypeError cannot_convert))
  ∧ (status = 400%Z →
     body = JObj [("errors",
                   JArr [JObj [("code", JStr "parameter_invalid");
                               ("detail", JStr "amount is required")]])] →
     ∃ e, PayMongoError.fromResponse status body = Return e
          ∧ PayMongoError.status e = 400%Z
          ∧ PayMongoError.code e = JStr "parameter_invalid"
          ∧ PayMongoError.message e = "amount is required"
          ∧ PayMongoError.errors_length e = Some 1).
Proof.
  intros listed fallback.
  split; [|split; [apply fromResponse_outcome|split; [|split; [|split]]]].
  - intros e. unfold PayMongoError.fromResponse. fold listed.
    match goal with
    | |- context [mbind _ (ToString ?m)] =>
        destruct (ToString m) as [text|t] eqn:Etext
    end; cbn [mbind outcome_bind mret outcome_ret]; [|discriminate].
    intros [= <-].
    cbn [PayMongoError.status PayMongoError.rawResponse PayMongoError.errors
         PayMongoError.code PayMongoError.message].
    split; [done|]. split; [done|]. split; [|split].
    + intros Hp. by apply js_coalesce_present.
    + intros first rest Hl. rewrite Hl in Etext |- *.
      rewrite (js_coalesce_present (JArr (first :: rest))) in Etext |- * by done.
      cbn [js_index0 hd] in Etext |- *.
      split; [|split; [|split]].
      * intros c ->. by rewrite js_coalesce_present.
      * intros Hc. by rewrite js_coalesce_absent.
      * intros d Hd. rewrite Hd in Etext.
        rewrite js_coalesce_present in Etext by done. by injection Etext.
      * intros Hd _. rewrite js_coalesce_absent in Etext by done.
        by injection Etext.
    + intros Hl.
      assert (js_index0 (js_coalesce listed (JArr [])) = JUndefined) as Hfirst.
      { destruct Hl as [Hl|Hl].
        - rewrite Hl. by rewrite (js_coalesce_present (JArr [])).
        - by rewrite (js_coalesce_absent listed). }
      rewrite Hfirst in Etext |- *.
      split; [|split; [done|]].
      * destruct Hl as [Hl|Hl].
        -- rewrite Hl. by rewrite (js_coalesce_present (JArr [])).
        -- by rewrite (js_coalesce_absent listed).
      * intros _. by injection Etext.
  - intros first rest Hl Hd. unfold PayMongoError.fromResponse. fold listed.
    rewrite Hl. rewrite (js_coalesce_present (JArr (first :: rest))) by done.
    cbn [js_index0 hd].
    destruct Hd as [[d Hd]|Hd].
    + rewrite Hd. rewrite (js_coalesce_present (JStr d)) by done. by eexists.
    + rewrite (js_coalesce_absent (js_opt_member first "detail")) by done.
      by eexists.
  - intros Hl. unfold PayMongoError.fromResponse. fold listed.
    assert (js_index0 (js_coalesce listed (JArr [])) = JUndefined) as ->.
    { destruct Hl as [Hl|Hl].
      - rewrite Hl. by rewrite (js_coalesce_present (JArr [])).
      - by rewrite (js_coalesce_absent listed). }
    by eexists.
  - intros first rest o Hl Hd Hown. unfold PayMongoError.fromResponse. fold listed.
    rewrite Hl. rewrite (js_coalesce_present (JArr (first :: rest))) by done.
    cbn [js_index0 hd]. rewrite Hd. rewrite (js_coalesce_present (JObj o)) by done.
    cbn [ToString]. by rewrite Hown.
  - intros -> Hbody. subst listed. rewrite Hbody. eexists.
    split; [reflexivity|]. by vm_compute.
Qed.

Lemma fromResponse_exposes_witness :
  let detail :=
    JObj [("code", JStr "parameter_invalid"); ("detail", JStr "amount is required")] in
  let body := JObj [("errors", JArr [detail])] in
  (∃ e, PayMongoError.fromResponse 400 body = Return e
        ∧ PayMongoError.status e = 400%Z
        ∧ PayMongoError.code e = JStr "parameter_invalid"
        ∧ PayMongoError.message e = "amount is required"
        ∧ PayMongoError.errors e = JArr [detail]
        ∧ PayMongoError.rawResponse e = body)
  ∧ (∃ e, PayMongoError.fromResponse 404 JNull = Return e
          ∧ PayMongoError.code e = JStr "unknown_error"
          ∧ PayMongoError.message e = "PayMongo API error (status 404)")
  ∧ PayMongoError.fromResponse 422
      (JObj [("errors", JArr [JObj [("detail", JObj [("toString", JNum 1)])]])])
    = Throw (ThrowTypeError cannot_convert).
Proof.
  intros detail body. split; [|split].
  - destruct (fromResponse_exposes 400 body) as (Hfields & _ & Hbuilt & _).
    destruct (Hbuilt detail [] eq_refl (or_introl (ex_intro _ _ eq_refl)))
      as [e He].
    exists e. split; [exact He|].
    destruct (Hfields e He) as (Hs & Hraw & Herr & Hfirst & _).
    destruct (Hfirst detail [] eq_refl) as (Hcode & _ & Hmsg & _).
    split; [exact Hs|].
    split; [exact (Hcode "parameter_invalid" eq_refl)|].
    split; [exact (Hmsg "amount is required" eq_refl)|].
    split; [exact (Herr eq_refl) | exact Hraw].
  - destruct (fromResponse_exposes 404 JNull) as (Hfields & _ & _ & Hbuilt & _).
    destruct (Hbuilt (or_intror eq_refl)) as [e He].
    exists e. split; [exact He|].
    destruct (Hfields e He) as (_ & _ & _ & _ & Habsent).
    destruct (Habsent (or_intror eq_refl)) as (_ & Hc & Hm).
    split; [exact Hc | exact (Hm eq_refl)].
  - destruct (fromResponse_exposes 422
                (JObj [("errors", JArr [JObj [("detail", JObj [("toString", JNum 1)])]])]))
      as (_ & _ & _ & _ & Hthrows & _).
    exact (Hthrows (JObj [("detail", JObj [("toString", JNum 1)])]) []
             [("toString", JNum 1)] eq_refl eq_refl eq_refl).
Defined.

(** C3, as the specification words it, fails on the literal of the
    fallback: with no error detail the error is built and its message is
    [PayMongo API error (status 500)], not [API error (status 500)]. *)
Lemma fromResponse_fallback_message_counterexample :
  ∃ e, PayMongoError.fromResponse 500 (JObj [("errors", JArr [])]) = Return e
       ∧ PayMongoError.message e = "PayMongo API error (status 500)"
       ∧ PayMongoError.message e ≠ "API error (status 500)".
Proof. eexists. split; [reflexivity|]. split; [reflexivity | discriminate]. Qed.

(** ** Base64 round trip *)

Lemma digit_table :
  forallb (λ n, match Base64.value_of (Base64.digit n) with
                | Some m => (m =? n)%N
                | None => false
                end && negb (Ascii.eqb (Base64.digit n) "="))
    (map N.of_nat (seq 0 64)) = true.
Proof. vm_compute. reflexivity. Qed.

Lemma digit_spec n :
  (n < 64)%N →
  Base64.value_of (Base64.digit n) = Some n
  ∧ Ascii.eqb (Base64.digit n) "=" = false.
Proof.
  intros Hn. pose proof digit_table as H.
  rewrite forallb_forall in H.
  specialize (H n). 
  assert (In n (map N.of_nat (seq 0 64))) as Hin.
  { apply in_map_iff. exists (N.to_nat n). split; [lia|]. apply in_seq. lia. }
  apply H in Hin. apply andb_true_iff in Hin as [H1 H2].
  destruct (Base64.value_of (Base64.digit n)) as [m|]; [|done].
  apply N.eqb_eq in H1 as ->. split; [done|]. by apply negb_true_iff.
Qed.

(** Linear arithmetic with division and remainder by constants. *)
Ltac div_lia := zify; Z.to_euclidean_division_equations; lia.

Lemma byte_N_of_ascii c : Base64.byte (N_of_ascii c) = c.
Proof. apply ascii_N_embedding. Qed.

Lemma sextets a b c :
  (a < 256 → b < 256 → c < 256 →
   a / 4 < 64 ∧ a mod 4 * 16 + b / 16 < 64
   ∧ b mod 16 * 4 + c / 64 < 64 ∧ c mod 64 < 64
   ∧ a mod 4 * 16 < 64 ∧ b mod 16 * 4 < 64
   ∧ a / 4 * 4 + (a mod 4 * 16 + b / 16) / 16 = a
   ∧ (a mod 4 * 16 + b / 16) mod 16 * 16 + (b mod 16 * 4 + c / 64) / 4 = b
   ∧ (b mod 16 * 4 + c / 64) mod 4 * 64 + c mod 64 = c
   ∧ a / 4 * 4 + (a mod 4 * 16) / 16 = a
   ∧ (a mod 4 * 16) mod 16 = 0
   ∧ (a mod 4 * 16 + b / 16) mod 16 * 16 + (b mod 16 * 4) / 4 = b
   ∧ (b mod 16 * 4) mod 4 = 0)%N.
Proof.
  intros Ha Hb Hc. repeat split; div_lia.
Qed.

Lemma decode_full_block c1 c2 c3 c4 rest s1 s2 s3 s4 :
  Base64.value_of c1 = Some s1 → Base64.value_of c2 = Some s2 →
  Base64.value_of c3 = Some s3 → Base64.value_of c4 = Some s4 →
  Ascii.eqb c3 "=" = false → Ascii.eqb c4 "=" = false →
  Base64.decode (String c1 (String c2 (String c3 (String c4 rest))))
  = tl ← Base64.decode rest;
    Some (String (Base64.byte (s1 * 4 + s2 / 16))
            (String (Base64.byte (s2 mod 16 * 16 + s3 / 4))
               (String (Base64.byte (s3 mod 4 * 64 + s4)) tl))).
Proof.
  intros H1 H2 H3 H4 E3 E4. cbn [Base64.decode].
  rewrite H1, H2. cbn [mbind option_bind]. rewrite E3, H3.
  cbn [mbind option_bind]. rewrite E4, H4. reflexivity.
Qed.

Lemma decode_two_bytes c1 c2 c3 s1 s2 s3 :
  Base64.value_of c1 = Some s1 → Base64.value_of c2 = Some s2 →
  Base64.value_of c3 = Some s3 → Ascii.eqb c3 "=" = false →
  (s3 mod 4 = 0)%N →
  Base64.decode (String c1 (String c2 (String c3 "=")))
  = Some (String (Base64.byte (s1 * 4 + s2 / 16))
            (String (Base64.byte (s2 mod 16 * 16 + s3 / 4)) EmptyString)).
Proof.
  intros H1 H2 H3 E3 Hpad. cbn [Base64.decode].
  rewrite H1, H2. cbn [mbind option_bind]. rewrite E3, H3.
  cbn [mbind option_bind]. rewrite Hpad. reflexivity.
Qed.

Lemma decode_one_byte c1 c2 s1 s2 :
  Base64.value_of c1 = Some s1 → Base64.value_of c2 = Some s2 →
  (s2 mod 16 = 0)%N →
  Base64.decode (String c1 (String c2 "=="))
  = Some (String (Base64.byte (s1 * 4 + s2 / 16)) EmptyString).
Proof.
  intros H1 H2 Hpad. cbn [Base64.decode]. rewrite H1, H2.
  cbn [mbind option_bind]. rewrite Hpad. reflexivity.
Qed.

Lemma decode_encode_bounded n s :
  (String.length s ≤ n)%nat → Base64.decode (Base64.encode s) = Some s.
Proof.
  revert s. induction n as [|n IH]; intros s Hlen.
  - destruct s; [reflexivity | simpl in Hlen; lia].
  - destruct s as [|a [|b [|c rest]]]; [reflexivity| | |].
    + pose proof (N_ascii_bounded a) as Ha.
      destruct (sextets (N_of_ascii a) 0 0) as
        (A1 & _ & _ & _ & A2 & _ & _ & _ & _ & R1 & P1 & _); [done..|].
      cbn [Base64.encode].
      rewrite (decode_one_byte _ _ _ _ (proj1 (digit_spec _ A1))
                 (proj1 (digit_spec _ A2)) P1).
      by rewrite R1, byte_N_of_ascii.
    + pose proof (N_ascii_bounded a) as Ha. pose proof (N_ascii_bounded b) as Hb.
      destruct (sextets (N_of_ascii a) (N_of_ascii b) 0) as
        (A1 & A2 & _ & _ & _ & A3 & R1 & _ & _ & _ & _ & R2 & P2); [done..|].
      cbn [Base64.encode].
      rewrite (decode_two_bytes _ _ _ _ _ _ (proj1 (digit_spec _ A1))
                 (proj1 (digit_spec _ A2)) (proj1 (digit_spec _ A3))
                 (proj2 (digit_spec _ A3)) P2).
      by rewrite R1, R2, !byte_N_of_ascii.
    + pose proof (N_ascii_bounded a) as Ha. pose proof (N_ascii_bounded b) as Hb.
      pose proof (N_ascii_bounded c) as Hc.
      destruct (sextets (N_of_ascii a) (N_of_ascii b) (N_of_ascii c)) as
        (A1 & A2 & A3 & A4 & _ & _ & R1 & R2 & R3 & _); [done..|].
      cbn [Base64.encode].
      rewrite (decode_full_block _ _ _ _ _ _ _ _ _ (proj1 (digit_spec _ A1))
                 (proj1 (digit_spec _ A2)) (proj1 (digit_spec _ A3))
                 (proj1 (digit_spec _ A4)) (proj2 (digit_spec _ A3))
                 (proj2 (digit_spec _ A4))).
      rewrite IH by (simpl in Hlen; lia).
      simpl. by rewrite R1, R2, R3, !byte_N_of_ascii.
Qed.

Lemma decode_encode s : Base64.decode (Base64.encode s) = Some s.
Proof. by apply (decode_encode_bounded (String.length s)). Qed.

Example encode_sk_test_abc : Base64.encode "sk_test_abc:" = "c2tfdGVzdF9hYmM6".
Proof. reflexivity. Qed.

Example encode_padding :
  Base64.encode "a" = "YQ==" ∧ Base64.encode "ab" = "YWI=".
Proof. split; reflexivity. Qed.

(** ** UTF-8 of code units below 256 *)

Lemma utf8_decode_utf8 s : utf8_decode (utf8 s) = Some s.
Proof.
  induction s as [|c rest IH]; [reflexivity|].
  cbn [utf8]. pose proof (N_ascii_bounded c) as Hc.
  destruct (N.ltb_spec (N_of_ascii c) 128) as [Hlt|Hge].
  - cbn [utf8_decode]. rewrite (proj2 (N.ltb_lt _ _) Hlt), IH. reflexivity.
  - cbn [utf8_decode].
    assert (192 + N_of_ascii c / 64 < 256
            ∧ 128 + N_of_ascii c mod 64 < 256
            ∧ 194 ≤ 192 + N_of_ascii c / 64 ≤ 195
            ∧ 128 ≤ 128 + N_of_ascii c mod 64 ≤ 191
            ∧ (192 + N_of_ascii c / 64 - 192) * 64
              + (128 + N_of_ascii c mod 64 - 128) = N_of_ascii c)%N
      as (B1 & B2 & [L1 L2] & [L3 L4] & R).
    { repeat split; div_lia. }
    rewrite !N_ascii_embedding by done.
    rewrite (proj2 (N.ltb_ge _ _)) by lia.
    rewrite (proj2 (N.leb_le _ _) L1), (proj2 (N.leb_le _ _) L2),
      (proj2 (N.leb_le _ _) L3), (proj2 (N.leb_le _ _) L4).
    cbn [andb]. rewrite IH. cbn [mbind option_bind].
    by rewrite R, ascii_N_embedding.
Qed.

Lemma utf8_ascii_only s : ascii_only s = true → utf8 s = s.
Proof.
  induction s as [|c rest IH]; [done|]. cbn [ascii_only utf8].
  intros [Hc Hrest]%andb_true_iff. by rewrite Hc, IH.
Qed.

Lemma ascii_only_app s t :
  ascii_only s = true → ascii_only t = true → ascii_only (s +:+ t) = true.
Proof.
  intros Hs Ht. induction s as [|c rest IH]; [done|].
  cbn [ascii_only] in *. apply andb_true_iff in Hs as [Hc Hrest].
  change (String c rest +:+ t) with (String c (rest +:+ t)).
  cbn [ascii_only]. by rewrite Hc, IH.
Qed.

(** ** [HttpClient.getAuthHeader] *)

Example getAuthHeader_sk_test_abc host :
  HttpClient.getAuthHeader host sample_client = "Basic c2tfdGVzdF9hYmM6".
Proof. unfold HttpClient.getAuthHeader. by destruct (btoa_defined host). Qed.

(** ** [HttpClient.buildUrl] *)

Lemma string_app_empty (s t : string) :
  s +:+ t = EmptyString → s = EmptyString ∧ t = EmptyString.
Proof. destruct s; [done | discriminate]. Qed.

Lemma serialize_nonempty l :
  l ≠ [] → FormUrlEncoded.serialize l ≠ EmptyString.
Proof.
  destruct l as [|[k v] l']; [done|]. intros _ H.
  cbn [FormUrlEncoded.serialize] in H.
  destruct l' as [|p l''].
  - apply string_app_empty in H as [_ H]. discriminate.
  - apply string_app_empty in H as [H _].
    apply string_app_empty in H as [_ H]. discriminate.
Qed.

Lemma searchParams_append_query u name value :
  url_query (searchParams_append u name value)
  = Some (FormUrlEncoded.serialize (url_searchParams u ++ [(name, value)])).
Proof.
  unfold searchParams_append. cbn [url_query].
  destruct (String.eqb_spec
              (FormUrlEncoded.serialize (url_searchParams u ++ [(name, value)]))
              EmptyString) as [H|H]; [|done].
  apply serialize_nonempty in H; [done|]. by destruct (url_searchParams u).
Qed.





(** ** [HttpClient.request] *)

Lemma response_ok_spec r :
  response_ok r = true ↔ (200 ≤ response_status r ≤ 299)%Z.
Proof.
  unfold response_ok. rewrite andb_true_iff, !Z.leb_le. done.
Qed.

Lemma response_ok_false r :
  response_ok r = false ↔ ¬ (200 ≤ response_status r ≤ 299)%Z.
Proof.
  rewrite <- response_ok_spec. destruct (response_ok r); split; congruence.
Qed.

(** What [request] does once the URL is built. *)
Lemma request_after_url host this options url :
  HttpClient.buildUrl host this (path options) (params options) = Return url →
  HttpClient.request host this options
  = match fetch host url (HttpClient.requestInit host this options) with
    | FetchRejected error =>
        Throw (ThrowPayMongoNetworkError
                 "Network error while communicating with PayMongo API" error)
    | FetchResolved response =>
        let responseBody := HttpClient.parseBody host (response_text response) in
        if response_ok response
        then Return responseBody
        else
          match PayMongoError.fromResponse (response_status response)
                  responseBody with
          | Return error => Throw (ThrowPayMongoError error)
          | Throw e => Throw e
          end
    end.
Proof.
  intros Hurl. unfold HttpClient.request. rewrite Hurl.
  cbn [mbind outcome_bind].
  destruct (fetch host url _) as [r|cause]; [|done].
  by destruct (response_ok r).
Qed.

(** When [new URL] throws, [request] throws the same error and [fetch] is
    never called. *)
Lemma request_without_url host this options e :
  HttpClient.buildUrl host this (path options) (params options) = Throw e →
  HttpClient.request host this options = Throw e.
Proof. intros Hurl. unfold HttpClient.request. by rewrite Hurl. Qed.

(** C7.  Every request that reaches [fetch] hands it, with the URL, the
    method and the body, the header [Authorization] whose value is [Basic ]
    followed by the Base64 encoding of the key followed by a colon, and
    what [request] does is decided by what [fetch] answers to that very
    call.  Decoding the encoded part gives back the bytes of [key:], which
    are its characters where [btoa] is used and its UTF-8 bytes where
    [Buffer] is used (the same bytes for an ASCII key); for the key
    [sk_test_abc] the encoded part is [c2tfdGVzdF9hYmM6], which decodes to
    [sk_test_abc:]. *)
Theorem getAuthHeader_basic_auth (host : Host) (this : HttpClient.t) :
  let credentials := apiKey (HttpClient.config this) +:+ ":" in
  let bytes := if btoa_defined host then credentials else utf8 credentials in
  let authorization := "Basic " +:+ Base64.encode bytes in
  (∀ options url,
     HttpClient.buildUrl host this (path options) (params options) = Return url →
     let init :=
       {| init_method := method options;
          init_headers :=
            [("Authorization", authorization);
             ("Content-Type", "application/json");
             ("Accept", "application/json")];
          init_body :=
            if truthy (body options) && HttpClient.is_post_or_patch (method options)
            then Some (JSON_stringify host (body options))
            else None |} in
     header_value (init_headers init) "Authorization" = Some authorization
     ∧ HttpClient.request host this options
       = match fetch host url init with
         | FetchRejected error =>
             Throw (ThrowPayMongoNetworkError
                      "Network error while communicating with PayMongo API" error)
         | FetchResolved response =>
             let responseBody := HttpClient.parseBody host (response_text response) in
             if response_ok response
             then Return responseBody
             else
               match PayMongoError.fromResponse (response_status response)
                       responseBody with
               | Return error => Throw (ThrowPayMongoError error)
               | Throw e => Throw e
               end
         end)
  ∧ HttpClient.getAuthHeader host this = authorization
  ∧ Base64.decode (Base64.encode bytes) = Some bytes
  ∧ (btoa_defined host = true → bytes = credentials)
  ∧ (btoa_defined host = false → utf8_decode bytes = Some credentials)
  ∧ (ascii_only (apiKey (HttpClient.config this)) = true → bytes = credentials)
  ∧ (apiKey (HttpClient.config this) = "sk_test_abc" →
     authorization = "Basic c2tfdGVzdF9hYmM6"
     ∧ Base64.decode "c2tfdGVzdF9hYmM6" = Some "sk_test_abc:").
Proof.
  intros credentials bytes authorization.
  assert (HttpClient.getAuthHeader host this = authorization) as Hauth.
  { unfold HttpClient.getAuthHeader. fold credentials.
    subst authorization bytes. by destruct (btoa_defined host). }
  split; [|split; [exact Hauth|split; [apply decode_encode|split; [|split; [|split]]]]].
  - intros options url Hurl init. split; [reflexivity|].
    rewrite (request_after_url host this options url Hurl).
    unfold HttpClient.requestInit. rewrite Hauth. reflexivity.
  - subst bytes. by intros ->.
  - subst bytes. intros ->. apply utf8_decode_utf8.
  - intros Hascii. subst bytes. destruct (btoa_defined host); [done|].
    apply utf8_ascii_only. subst credentials. by apply ascii_only_app.
  - intros Hkey. split; [|reflexivity].
    subst authorization bytes credentials. rewrite Hkey.
    by destruct (btoa_defined host).
Qed.

Lemma getAuthHeader_basic_auth_witness :
  let answer := {| response_status := 200; response_text := None |} in
  let retrieve :=
    {| method := GET; path := "/payments/pay_1"; body := JUndefined;
       params := None |} in
  HttpClient.request (guarded_host "Basic c2tfdGVzdF9hYmM6" answer)
    sample_client retrieve
  = Return JNull
  ∧ (∃ e, HttpClient.request (guarded_host "Basic c2tfdGVzdF9hYmM" answer)
            sample_client retrieve
          = Throw (ThrowPayMongoError e)
          ∧ PayMongoError.status e = 401%Z)
  ∧ Base64.decode "c2tfdGVzdF9hYmM6" = Some "sk_test_abc:".
Proof.
  intros answer retrieve. split; [|split].
  - destruct (getAuthHeader_basic_auth
                (guarded_host "Basic c2tfdGVzdF9hYmM6" answer) sample_client)
      as (Hsent & _).
    destruct (Hsent retrieve "https://api.paymongo.com/payments/pay_1" eq_refl)
      as [_ Hrequest].
    exact Hrequest.
  - destruct (getAuthHeader_basic_auth
                (guarded_host "Basic c2tfdGVzdF9hYmM" answer) sample_client)
      as (Hsent & _).
    destruct (Hsent retrieve "https://api.paymongo.com/payments/pay_1" eq_refl)
      as [_ Hrequest].
    eexists. split; [exact Hrequest | reflexivity].
  - destruct (getAuthHeader_basic_auth
                (guarded_host "Basic c2tfdGVzdF9hYmM6" answer) sample_client)
      as (_ & _ & _ & _ & _ & _ & Hkey).
    exact (proj2 (Hkey eq_refl)).
Defined.

(** C4, as the code has it.  Once the request is issued, it fails with a
    [PayMongoNetworkError] exactly when [fetch] rejects, and the error wraps
    the cause; it returns exactly when the status is within 200..299, and
    what it returns is the parsed body.  On a status outside 200..299 it
    fails with the [PayMongoError] built from that status and the parsed
    body exactly when [fromResponse] builds one, which it does whenever the
    detail text of the first listed detail is a string or is lacking; where
    the conversion of that detail text to a string throws, the [TypeError]
    comes out of [request] instead, and this is the only way a [TypeError]
    comes out of an issued request.  No configuration error comes out of
    it. *)
Theorem request_error_classification
    (host : Host) (this : HttpClient.t) (options : RequestOptions)
    (url : string) :
  HttpClient.buildUrl host this (path options) (params options) = Return url →
  let result := HttpClient.request host this options in
  let fetched := fetch host url (HttpClient.requestInit host this options) in
  (∀ m cause,
     result = Throw (ThrowPayMongoNetworkError m cause) ↔
     fetched = FetchRejected cause
     ∧ m = "Network error while communicating with PayMongo API")
  ∧ (∀ e,
       result = Throw (ThrowPayMongoError e) ↔
       ∃ r, fetched = FetchResolved r
            ∧ ¬ (200 ≤ response_status r ≤ 299)%Z
            ∧ PayMongoError.fromResponse (response_status r)
                (HttpClient.parseBody host (response_text r))
              = Return e)
  ∧ (∀ v,
       result = Return v ↔
       ∃ r, fetched = FetchResolved r
            ∧ (200 ≤ response_status r ≤ 299)%Z
            ∧ v = HttpClient.parseBody host (response_text r))
  ∧ (∀ m, result ≠ Throw (ThrowPayMongoConfigError m))
  ∧ (∀ t,
       result = Throw (ThrowTypeError t) ↔
       ∃ r, fetched = FetchResolved r
            ∧ ¬ (200 ≤ response_status r ≤ 299)%Z
            ∧ PayMongoError.fromResponse (response_status r)
                (HttpClient.parseBody host (response_text r))
              = Throw (ThrowTypeError t))
  ∧ (∀ r,
       fetched = FetchResolved r →
       ¬ (200 ≤ response_status r ≤ 299)%Z →
       let first :=
         js_index0
           (js_coalesce
              (js_opt_member (HttpClient.parseBody host (response_text r)) "errors")
              (JArr [])) in
       (∃ d, js_opt_member first "detail" = JStr d)
       ∨ present (js_opt_member first "detail") = false →
       ∃ e, result = Throw (ThrowPayMongoError e)
            ∧ PayMongoError.status e = response_status r).
Proof.
  intros Hurl result fetched. subst result.
  rewrite (request_after_url host this options url Hurl). fold fetched.
  destruct fetched as [r|cause] eqn:Hf; cbn zeta.
  - destruct (response_ok r) eqn:Hok.
    + pose proof (proj1 (response_ok_spec r) Hok) as Hrange.
      split; [|split; [|split; [|split; [|split]]]].
      * intros m cause. split; [intros [=] | intros [[=] _]].
      * intros e. split; [intros [=]|].
        intros (r' & [= <-] & Hnot & _). done.
      * intros v. split.
        -- intros [= <-]. by exists r.
        -- intros (r' & [= <-] & _ & ->). done.
      * intros m [=].
      * intros t. split; [intros [=]|].
        intros (r' & [= <-] & Hnot & _). done.
      * intros r' [= <-] Hnot. done.
    + pose proof (proj1 (response_ok_false r) Hok) as Hrange.
      destruct (PayMongoError.fromResponse (response_status r)
                  (HttpClient.parseBody host (response_text r)))
        as [error|thrown] eqn:Hbuilt.
      * split; [|split; [|split; [|split; [|split]]]].
        -- intros m cause. split; [intros [=] | intros [[=] _]].
        -- intros e. split.
           ++ intros [= <-]. by exists r.
           ++ intros (r' & [= <-] & _ & Hb). rewrite Hbuilt in Hb.
              by injection Hb as ->.
        -- intros v. split; [intros [=]|].
           intros (r' & [= <-] & Hin & _). done.
        -- intros m [=].
        -- intros t. split; [intros [=]|].
           intros (r' & [= <-] & _ & Hb). rewrite Hbuilt in Hb. discriminate.
        -- intros r' [= <-] _ _. exists error. split; [done|].
           by apply (fromResponse_status _ _ _ Hbuilt).
      * pose proof (fromResponse_throws _ _ _ Hbuilt) as ->.
        split; [|split; [|split; [|split; [|split]]]].
        -- intros m cause. split; [intros [=] | intros [[=] _]].
        -- intros e. split; [intros [=]|].
           intros (r' & [= <-] & _ & Hb). rewrite Hbuilt in Hb. discriminate.
        -- intros v. split; [intros [=]|].
           intros (r' & [= <-] & Hin & _). done.
        -- intros m [=].
        -- intros t. split.
           ++ intros [= <-]. by exists r.
           ++ intros (r' & [= <-] & _ & Hb). rewrite Hbuilt in Hb.
              by injection Hb as <-.
        -- intros r' [= <-] _ Hd.
           destruct (fromResponse_builds (response_status r)
                       (HttpClient.parseBody host (response_text r)) Hd)
             as [e He].
           rewrite Hbuilt in He. discriminate.
  - split; [|split; [|split; [|split; [|split]]]].
    + intros m cause'. split.
      * by intros [= <- <-].
      * intros [[= <-] ->]. done.
    + intros e. split; [intros [=] | intros (r' & [=] & _)].
    + intros v. split; [intros [=] | intros (r' & [=] & _)].
    + intros m [=].
    + intros t. split; [intros [=] | intros (r' & [=] & _)].
    + intros r' [=].
Qed.

Lemma request_error_classification_witness :
  let rejecting :=
    scripted_host true [] "{}"
      (FetchRejected {| err_name := "TypeError"; err_message := "fetch failed" |}) in
  let not_found :=
    scripted_host true [("{}", JObj [])] "{}"
      (FetchResolved {| response_status := 404; response_text := Some "{}" |}) in
  let retrieve :=
    {| method := GET; path := "/payments/pay_1"; body := JUndefined;
       params := None |} in
  HttpClient.request rejecting sample_client retrieve
  = Throw (ThrowPayMongoNetworkError
             "Network error while communicating with PayMongo API"
             {| err_name := "TypeError"; err_message := "fetch failed" |})
  ∧ HttpClient.request not_found sample_client retrieve
    = Throw (ThrowPayMongoError
               {| PayMongoError.message := "PayMongo API error (status 404)";
                  PayMongoError.status := 404;
                  PayMongoError.code := JStr "unknown_error";
                  PayMongoError.errors := JArr [];
                  PayMongoError.rawResponse := JObj [] |}).
Proof.
  intros rejecting not_found retrieve. split.
  - apply (proj1 (request_error_classification rejecting sample_client retrieve
                    "https://api.paymongo.com/payments/pay_1" eq_refl)).
    split; reflexivity.
  - apply (proj1 (proj2 (request_error_classification not_found sample_client
                           retrieve "https://api.paymongo.com/payments/pay_1"
                           eq_refl))).
    exists {| response_status := 404; response_text := Some "{}" |}.
    split; [reflexivity|]. split; [simpl; lia | reflexivity].
Defined.

(** C4, as the specification words it, fails where the error cannot be
    built: [fetch] resolves with status 400, outside 200..299, the first
    detail of the body has an object with an own [toString] entry for its
    detail text, and [request] fails with a [TypeError], not with a
    [PayMongoError]. *)
Lemma request_conversion_failure_counterexample :
  let response :=
    {| response_status := 400; response_text := Some detail_object_text |} in
  let host :=
    scripted_host true [(detail_object_text, detail_object_body)] EmptyString
      (FetchResolved response) in
  let retrieve :=
    {| method := GET; path := "/payments/pay_1"; body := JUndefined;
       params := None |} in
  fetch host "https://api.paymongo.com/payments/pay_1"
    (HttpClient.requestInit host sample_client retrieve)
  = FetchResolved response
  ∧ ¬ (200 ≤ response_status response ≤ 299)%Z
  ∧ HttpClient.request host sample_client retrieve
    = Throw (ThrowTypeError cannot_convert)
  ∧ ∀ e, HttpClient.request host sample_client retrieve
         ≠ Throw (ThrowPayMongoError e).
Proof.
  intros response host retrieve.
  assert (HttpClient.request host sample_client retrieve
          = Throw (ThrowTypeError cannot_convert)) as Hrequest by reflexivity.
  split; [reflexivity|]. split; [simpl; lia|]. split; [exact Hrequest|].
  intros e. rewrite Hrequest. discriminate.
Qed.

(** C8.  On a status within 200..299, an empty response text makes
    [request] return [null], and so does a text that [JSON.parse] rejects,
    and a body that cannot be read: no error is raised. *)
Theorem request_success_unparsable_body
    (host : Host) (this : HttpClient.t) (options : RequestOptions)
    (url : string) (response : Response) :
  HttpClient.buildUrl host this (path options) (params options) = Return url →
  fetch host url (HttpClient.requestInit host this options)
    = FetchResolved response →
  (200 ≤ response_status response ≤ 299)%Z →
  (response_text response = Some EmptyString →
   HttpClient.request host this options = Return JNull)
  ∧ (∀ text, response_text response = Some text → text ≠ EmptyString →
             JSON_parse host text = None →
             HttpClient.request host this options = Return JNull)
  ∧ (response_text response = None →
     HttpClient.request host this options = Return JNull).
Proof.
  intros Hurl Hfetch Hrange.
  rewrite (request_after_url host this options url Hurl), Hfetch.
  rewrite (proj2 (response_ok_spec response) Hrange). cbn zeta.
  split; [|split].
  - by intros ->.
  - intros text -> Hne Hparse. unfold HttpClient.parseBody.
    rewrite (proj2 (String.eqb_neq _ _) Hne), Hparse. done.
  - by intros ->.
Qed.

Lemma request_success_unparsable_body_witness :
  let no_content :=
    scripted_host true [] "{}"
      (FetchResolved {| response_status := 204;
                        response_text := Some EmptyString |}) in
  let not_json :=
    scripted_host true [] "{}"
      (FetchResolved {| response_status := 200;
                        response_text := Some "<html>OK</html>" |}) in
  let remove :=
    {| method := DELETE; path := "/customers/cus_1"; body := JUndefined;
       params := None |} in
  HttpClient.request no_content sample_client remove = Return JNull
  ∧ HttpClient.request not_json sample_client remove = Return JNull.
Proof.
  intros no_content not_json remove. split.
  - destruct (request_success_unparsable_body no_content sample_client remove
                "https://api.paymongo.com/customers/cus_1"
                {| response_status := 204; response_text := Some EmptyString |}
                eq_refl eq_refl) as (Hempty & _ & _); [simpl; lia|].
    apply Hempty. reflexivity.
  - destruct (request_success_unparsable_body not_json sample_client remove
                "https://api.paymongo.com/customers/cus_1"
                {| response_status := 200;
                   response_text := Some "<html>OK</html>" |}
                eq_refl eq_refl) as (_ & Hbad & _); [simpl; lia|].
    apply (Hbad "<html>OK</html>"); [reflexivity | discriminate | reflexivity].
Defined.

(** ** [PayMongo.resolveConfig] and the constructor *)

Lemma given_Some key : key ≠ EmptyString → PayMongo.given (Some key) = true.
Proof.
  intros Hne. unfold PayMongo.given.
  by rewrite (proj2 (String.eqb_neq _ _) Hne).
Qed.

(** [resolveConfig] throws nothing but configuration errors. *)
Lemma resolveConfig_throws_config_error config e :
  PayMongo.resolveConfig config = Throw e →
  ∃ message, e = ThrowPayMongoConfigError message.
Proof.
  unfold PayMongo.resolveConfig.
  repeat match goal with
         | |- context [if ?b then _ else _] => destruct b
         end; intros [=]; subst; eauto.
Qed.

(** The constructor fails exactly as [resolveConfig] does, and otherwise
    keeps the resolved configuration for itself and for its transport. *)
Lemma new_outcome st config :
  match PayMongo.resolveConfig config with
  | Throw e => (PayMongo.new st config).1 = Throw e
  | Return resolved =>
      ∃ client, (PayMongo.new st config).1 = Return client
                ∧ PayMongo.config client = resolved
                ∧ HttpClient.config (PayMongo.http client) = resolved
                ∧ PayMongo.identity client = PayMongo.allocated st
  end
  ∧ (PayMongo.new st config).2
    = {| PayMongo.instance := PayMongo.instance st;
         PayMongo.allocated := S (PayMongo.allocated st) |}.
Proof.
  unfold PayMongo.new. destruct (PayMongo.resolveConfig config) as [rc|e].
  - split; [|done]. eexists. split; [reflexivity|]. done.
  - done.
Qed.

(** X7.  Construction succeeds exactly when the chosen key carries the
    prefix of its mode: a secret key is given and starts with [sk_], or no
    secret key is given and a public key is given that starts with
    [pk_]. *)
Lemma resolveConfig_succeeds_iff config :
  (∃ resolved, PayMongo.resolveConfig config = Return resolved) ↔
  (PayMongo.given (secretKey config) = true
   ∧ PayMongo.startsWith (default EmptyString (secretKey config)) "sk_" = true)
  ∨ (PayMongo.given (secretKey config) = false
     ∧ PayMongo.given (publicKey config) = true
     ∧ PayMongo.startsWith (default EmptyString (publicKey config)) "pk_" = true).
Proof.
  unfold PayMongo.resolveConfig, PayMongo.or_else.
  destruct (PayMongo.given (secretKey config)) eqn:Hs,
    (PayMongo.given (publicKey config)) eqn:Hp; cbn [negb andb].
  - destruct (PayMongo.startsWith _ "sk_"); cbn [negb]; split;
      try (intros [? [=]]); try (intros [[_ [=]]|[[=] _]]); eauto.
  - destruct (PayMongo.startsWith _ "sk_"); cbn [negb]; split;
      try (intros [? [=]]); try (intros [[_ [=]]|[[=] _]]); eauto.
  - destruct (PayMongo.startsWith _ "pk_"); cbn [negb]; split;
      try (intros [? [=]]); try (intros [[[=] _]|(_ & _ & [=])]); eauto.
  - split; [intros [? [=]] | intros [[[=] _]|(_ & [=] & _)]].
Qed.

(** C5.  Construction with neither key given fails with a configuration
    error; construction fails with a configuration error when the public
    key is the only one given and does not start with [pk_], and when the
    secret key is given and does not start with [sk_]; when both keys are
    given and the secret key starts with [sk_], construction succeeds
    (the public key is not looked at), the resolved API key (the one the transport authenticates with) is the
    secret key, and the client reports server-side mode.  A key is given
    when it is present and not the empty string. *)
Theorem resolveConfig_credentials (st : PayMongo.statics) (config : PayMongoConfig) :
  (PayMongo.given (publicKey config) = false →
   PayMongo.given (secretKey config) = false →
   ∃ message,
     PayMongo.resolveConfig config = Throw (ThrowPayMongoConfigError message)
     ∧ (PayMongo.new st config).1 = Throw (ThrowPayMongoConfigError message))
  ∧ (∀ pk, publicKey config = Some pk → pk ≠ EmptyString →
           PayMongo.given (secretKey config) = false →
           PayMongo.startsWith pk "pk_" = false →
           ∃ message,
             PayMongo.resolveConfig config
               = Throw (ThrowPayMongoConfigError message)
             ∧ (PayMongo.new st config).1
               = Throw (ThrowPayMongoConfigError message))
  ∧ (∀ sk, secretKey config = Some sk → sk ≠ EmptyString →
           PayMongo.startsWith sk "sk_" = false →
           ∃ message,
             PayMongo.resolveConfig config
               = Throw (ThrowPayMongoConfigError message)
             ∧ (PayMongo.new st config).1
               = Throw (ThrowPayMongoConfigError message))
  ∧ (∀ pk sk, publicKey config = Some pk → pk ≠ EmptyString →
              secretKey config = Some sk → sk ≠ EmptyString →
              PayMongo.startsWith sk "sk_" = true →
              ∃ client,
                (PayMongo.new st config).1 = Return client
                ∧ PayMongo.resolveConfig config = Return (PayMongo.config client)
                ∧ apiKey (PayMongo.config client) = sk
                ∧ apiKey (HttpClient.config (PayMongo.http client)) = sk
                ∧ PayMongo.isServerSide client = true
                ∧ PayMongo.isClientSide client = false).
Proof.
  pose proof (new_outcome st config) as [Hnew _].
  split; [|split; [|split]].
  - intros Hp Hs. revert Hnew. unfold PayMongo.resolveConfig.
    rewrite Hp, Hs. cbn [negb andb]. eauto.
  - intros pk Hpk Hne Hs Hprefix. revert Hnew.
    unfold PayMongo.resolveConfig, PayMongo.or_else.
    rewrite Hs, Hpk, (given_Some pk Hne). cbn [negb andb from_option id].
    rewrite Hprefix. cbn [negb]. eauto.
  - intros sk Hsk Hne Hprefix. revert Hnew.
    unfold PayMongo.resolveConfig, PayMongo.or_else.
    rewrite Hsk, (given_Some sk Hne). cbn [negb andb from_option id].
    rewrite andb_false_r. cbn [negb andb]. rewrite Hprefix. cbn [negb]. eauto.
  - intros pk sk Hpk Hpne Hsk Hsne Hprefix. revert Hnew.
    unfold PayMongo.resolveConfig, PayMongo.or_else.
    rewrite Hsk, Hpk, (given_Some sk Hsne), (given_Some pk Hpne).
    cbn [negb andb from_option id]. rewrite Hprefix. cbn [negb andb].
    intros (client & Hc & Hcfg & Hhttp & _). exists client.
    split; [done|]. split; [by rewrite Hcfg|].
    unfold PayMongo.isServerSide, PayMongo.isClientSide.
    rewrite Hhttp, Hcfg. done.
Qed.

Lemma resolveConfig_credentials_witness :
  (∃ message,
     (PayMongo.new PayMongo.initial
        {| publicKey := None; secretKey := None; baseUrl := None |}).1
     = Throw (ThrowPayMongoConfigError message))
  ∧ (∃ message,
       (PayMongo.new PayMongo.initial
          {| publicKey := Some "sk_test_abc"; secretKey := None;
             baseUrl := None |}).1
       = Throw (ThrowPayMongoConfigError message))
  ∧ (∃ message,
       (PayMongo.new PayMongo.initial
          {| publicKey := Some "pk_test_abc"; secretKey := Some "pk_test_abc";
             baseUrl := None |}).1
       = Throw (ThrowPayMongoConfigError message))
  ∧ (∃ client,
       (PayMongo.new PayMongo.initial
          {| publicKey := Some "pk_test_abc"; secretKey := Some "sk_test_abc";
             baseUrl := None |}).1
       = Return client
       ∧ apiKey (PayMongo.config client) = "sk_test_abc"
       ∧ PayMongo.isServerSide client = true).
Proof.
  split; [|split; [|split]].
  - destruct (resolveConfig_credentials PayMongo.initial
                {| publicKey := None; secretKey := None; baseUrl := None |})
      as (Hnone & _).
    destruct (Hnone eq_refl eq_refl) as (m & _ & Hm). by exists m.
  - destruct (resolveConfig_credentials PayMongo.initial
                {| publicKey := Some "sk_test_abc"; secretKey := None;
                   baseUrl := None |})
      as (_ & Hpub & _).
    destruct (Hpub "sk_test_abc" eq_refl ltac:(discriminate) eq_refl eq_refl)
      as (m & _ & Hm). by exists m.
  - destruct (resolveConfig_credentials PayMongo.initial
                {| publicKey := Some "pk_test_abc"; secretKey := Some "pk_test_abc";
                   baseUrl := None |})
      as (_ & _ & Hsec & _).
    destruct (Hsec "pk_test_abc" eq_refl ltac:(discriminate) eq_refl)
      as (m & _ & Hm). by exists m.
  - destruct (resolveConfig_credentials PayMongo.initial
                {| publicKey := Some "pk_test_abc"; secretKey := Some "sk_test_abc";
                   baseUrl := None |})
      as (_ & _ & _ & Hboth).
    destruct (Hboth "pk_test_abc" "sk_test_abc" eq_refl ltac:(discriminate)
                eq_refl ltac:(discriminate) eq_refl)
      as (client & Hc & _ & Hkey & _ & Hside & _).
    exists client. done.
Defined.

(** ** The single-instance accessor *)

Lemma storeNew_success st config resolved :
  PayMongo.resolveConfig config = Return resolved →
  ∃ created,
    PayMongo.storeNew st config
    = (Return created,
       {| PayMongo.instance := Some created;
          PayMongo.allocated := S (PayMongo.allocated st) |})
    ∧ PayMongo.config created = resolved
    ∧ PayMongo.identity created = PayMongo.allocated st.
Proof.
  intros Hr. unfold PayMongo.storeNew, PayMongo.new. rewrite Hr.
  eexists. split; [reflexivity|]. done.
Qed.

Lemma storeNew_failure st config e :
  PayMongo.resolveConfig config = Throw e →
  PayMongo.storeNew st config
  = (Throw e,
     {| PayMongo.instance := PayMongo.instance st;
        PayMongo.allocated := S (PayMongo.allocated st) |}).
Proof.
  intros Hr. unfold PayMongo.storeNew, PayMongo.new. by rewrite Hr.
Qed.

Lemma initial_well_formed : PayMongo.well_formed PayMongo.initial.
Proof. exact I. Qed.

Lemma getInstance_well_formed st config forceNew :
  PayMongo.well_formed st →
  PayMongo.well_formed (PayMongo.getInstance st config forceNew).2.
Proof.
  intros Hwf.
  assert (PayMongo.well_formed (PayMongo.storeNew st config).2) as Hstore.
  { destruct (PayMongo.resolveConfig config) as [rc|e] eqn:Hr.
    - destruct (storeNew_success st config rc Hr) as (c & -> & _ & Hid).
      unfold PayMongo.well_formed. simpl. lia.
    - rewrite (storeNew_failure st config e Hr).
      unfold PayMongo.well_formed in *. simpl.
      destruct (PayMongo.instance st); [lia | done]. }
  unfold PayMongo.getInstance.
  destruct (PayMongo.instance st) eqn:Hi; [|done].
  by destruct (PayMongo.requested forceNew).
Qed.

Lemma resetInstance_well_formed st :
  PayMongo.well_formed (PayMongo.resetInstance st).
Proof. exact I. Qed.

(** C9.  With a stored instance and [forceNew] not requested,
    [getInstance] returns the stored instance, whatever configuration it is
    given, and changes nothing.  With no stored instance, or with
    [forceNew] requested, and a configuration that resolves, it constructs
    a client from that configuration, stores it and returns it; the client
    is a new object, distinct from the one stored before.  After
    [resetInstance] nothing is stored, and the next [getInstance]
    constructs afresh. *)
Theorem getInstance_singleton
    (st : PayMongo.statics) (config : PayMongoConfig) (forceNew : option bool) :
  (∀ stored,
     PayMongo.instance st = Some stored →
     PayMongo.requested forceNew = false →
     PayMongo.getInstance st config forceNew = (Return stored, st))
  ∧ (∀ resolved,
       PayMongo.instance st = None ∨ PayMongo.requested forceNew = true →
       PayMongo.resolveConfig config = Return resolved →
       ∃ created,
         PayMongo.getInstance st config forceNew
         = (Return created,
            {| PayMongo.instance := Some created;
               PayMongo.allocated := S (PayMongo.allocated st) |})
         ∧ PayMongo.config created = resolved
         ∧ PayMongo.identity created = PayMongo.allocated st
         ∧ (PayMongo.well_formed st →
            ∀ old, PayMongo.instance st = Some old →
                   PayMongo.identity old ≠ PayMongo.identity created))
  ∧ PayMongo.instance (PayMongo.resetInstance st) = None
  ∧ (∀ resolved,
       PayMongo.resolveConfig config = Return resolved →
       ∃ created,
         PayMongo.getInstance (PayMongo.resetInstance st) config forceNew
         = (Return created,
            {| PayMongo.instance := Some created;
               PayMongo.allocated := S (PayMongo.allocated st) |})
         ∧ PayMongo.config created = resolved
         ∧ PayMongo.identity created = PayMongo.allocated st).
Proof.
  split; [|split; [|split]].
  - intros stored Hi Hf. unfold PayMongo.getInstance. by rewrite Hi, Hf.
  - intros resolved Hcase Hr.
    destruct (storeNew_success st config resolved Hr) as (created & Hs & Hc & Hid).
    exists created. split; [|split; [done|split; [done|]]].
    + unfold PayMongo.getInstance.
      destruct (PayMongo.instance st) eqn:Hi; [|done].
      destruct Hcase as [[=] | ->]. done.
    + intros Hwf old Hold. unfold PayMongo.well_formed in Hwf.
      rewrite Hold in Hwf. lia.
  - reflexivity.
  - intros resolved Hr.
    destruct (storeNew_success (PayMongo.resetInstance st) config resolved Hr)
      as (created & Hs & Hc & Hid).
    exists created. split; [|done].
    unfold PayMongo.getInstance. cbn [PayMongo.resetInstance PayMongo.instance].
    exact Hs.
Qed.

Lemma getInstance_singleton_witness :
  let first := {| publicKey := None; secretKey := Some "sk_test_abc";
                  baseUrl := None |} in
  let second := {| publicKey := Some "pk_test_xyz"; secretKey := None;
                   baseUrl := None |} in
  ∃ a st1,
    PayMongo.getInstance PayMongo.initial first None = (Return a, st1)
    ∧ PayMongo.getInstance st1 second None = (Return a, st1)
    ∧ ∃ b st2,
        PayMongo.getInstance st1 second (Some true) = (Return b, st2)
        ∧ PayMongo.instance st2 = Some b
        ∧ PayMongo.identity b ≠ PayMongo.identity a
        ∧ apiKey (PayMongo.config b) = "pk_test_xyz".
Proof.
  intros first second.
  destruct (getInstance_singleton PayMongo.initial first None)
    as (_ & Hnew & _).
  destruct (Hnew _ (or_introl eq_refl) eq_refl) as (a & Ha & Hca & Hia & _).
  eexists a, _. split; [exact Ha|].
  match type of Ha with _ = (_, ?s) => set (st1 := s) in * end.
  destruct (getInstance_singleton st1 second None) as (Hkeep & _).
  split; [exact (Hkeep a eq_refl eq_refl)|].
  destruct (getInstance_singleton st1 second (Some true)) as (_ & Hforce & _).
  destruct (Hforce _ (or_intror eq_refl) eq_refl)
    as (b & Hb & Hcb & Hib & Hfresh).
  eexists b, _. split; [exact Hb|]. split; [reflexivity|].
  split; [|by rewrite Hcb].
  assert (PayMongo.well_formed st1) as Hwf.
  { unfold PayMongo.well_formed, st1. cbn [PayMongo.instance PayMongo.allocated].
    rewrite Hia. cbn [PayMongo.initial PayMongo.allocated]. lia. }
  intros Heq. apply (Hfresh Hwf a eq_refl). by symmetry.
Defined.

(** C10.  When [getInstance] has to construct (nothing is stored, or
    [forceNew] is requested) and the configuration does not resolve, the
    configuration error comes out of [getInstance] and the stored instance
    is what it was: a client stored before is still stored and is what a
    later [getInstance] without [forceNew] returns, and where nothing was
    stored nothing is stored. *)
Theorem getInstance_failed_construction
    (st : PayMongo.statics) (config : PayMongoConfig) (forceNew : option bool)
    (e : thrown) :
  PayMongo.resolveConfig config = Throw e →
  PayMongo.instance st = None ∨ PayMongo.requested forceNew = true →
  (∃ message, e = ThrowPayMongoConfigError message)
  ∧ ∃ st',
      PayMongo.getInstance st config forceNew = (Throw e, st')
      ∧ PayMongo.instance st' = PayMongo.instance st
      ∧ (∀ stored later laterForce,
           PayMongo.instance st = Some stored →
           PayMongo.requested laterForce = false →
           PayMongo.getInstance st' later laterForce = (Return stored, st'))
      ∧ (PayMongo.instance st = None → PayMongo.instance st' = None).
Proof.
  intros Hr Hcase.
  split; [by apply (resolveConfig_throws_config_error config)|].
  exists {| PayMongo.instance := PayMongo.instance st;
            PayMongo.allocated := S (PayMongo.allocated st) |}.
  split; [|split; [done|split; [|done]]].
  - unfold PayMongo.getInstance. rewrite (storeNew_failure st config e Hr).
    destruct (PayMongo.instance st) eqn:Hi; [|done].
    destruct Hcase as [[=] | ->]. done.
  - intros stored later laterForce Hi Hf. unfold PayMongo.getInstance.
    cbn [PayMongo.instance]. by rewrite Hi, Hf.
Qed.

Lemma getInstance_failed_construction_witness :
  let good := {| publicKey := None; secretKey := Some "sk_test_abc";
                 baseUrl := None |} in
  let bad := {| publicKey := Some "sk_test_abc"; secretKey := None;
                baseUrl := None |} in
  ∃ a st1 e st2,
    PayMongo.getInstance PayMongo.initial good None = (Return a, st1)
    ∧ PayMongo.getInstance st1 bad (Some true) = (Throw e, st2)
    ∧ PayMongo.instance st2 = Some a
    ∧ PayMongo.getInstance st2 bad None = (Return a, st2).
Proof.
  intros good bad.
  eexists _, _, _, _. split; [reflexivity|].
  match goal with
  | |- PayMongo.getInstance ?s _ _ = _ ∧ _ =>
      destruct (getInstance_failed_construction s bad (Some true) _ eq_refl
                  (or_intror eq_refl)) as (_ & st' & Hthrow & Hkeep & Hlater & _)
  end.
  injection Hthrow as <-.
  split; [reflexivity|]. split; [reflexivity|].
  exact (Hlater _ bad None eq_refl eq_refl).
Defined.

(** * Further properties of the resource layer *)

(** ** [BaseResource.buildPath] *)

Lemma prefix_app (s t : string) : String.prefix s (s +:+ t) = true.
Proof.
  induction s as [|c s IH]; [by destruct t|].
  change (String c s +:+ t) with (String c (s +:+ t)).
  cbn [String.prefix]. destruct (ascii_dec c c); [exact IH | done].
Qed.

Lemma prefix_refl (s : string) : String.prefix s s = true.
Proof.
  induction s as [|c s IH]; [done|]. cbn [String.prefix].
  destruct (ascii_dec c c); [exact IH | done].
Qed.

Lemma prefix_trans (a b c : string) :
  String.prefix a b = true → String.prefix b c = true →
  String.prefix a c = true.
Proof.
  revert b c. induction a as [|x a IH]; intros b c; [by destruct c|].
  destruct b as [|y b]; [done|]. destruct c as [|z c]; [by destruct b|].
  simpl. destruct (ascii_dec x y) as [->|]; [|done].
  destruct (ascii_dec y z) as [->|]; [|done]. apply IH.
Qed.

Lemma string_app_assoc (a b c : string) : (a +:+ b) +:+ c = a +:+ (b +:+ c).
Proof.
  induction a as [|x a IH]; [done|].
  change (String x (a +:+ b) +:+ c = String x (a +:+ (b +:+ c))).
  change (String x ((a +:+ b) +:+ c) = String x (a +:+ (b +:+ c))).
  by rewrite IH.
Qed.

(** X1.  The path of an endpoint always begins with the base path of the
    resource; an id or a suffix that is the empty string is treated as one
    that is not given; a non-empty id and suffix are appended in that
    order, each after a slash. *)
Theorem buildPath_segments (this : BaseResource.t) (id suffix : option string) :
  String.prefix (basePath this) (buildPath this id suffix) = true
  ∧ buildPath this (Some EmptyString) suffix = buildPath this None suffix
  ∧ buildPath this id (Some EmptyString) = buildPath this id None
  ∧ buildPath this None None = basePath this
  ∧ (∀ i s, i ≠ EmptyString → s ≠ EmptyString →
       buildPath this (Some i) None = basePath this +:+ "/" +:+ i
       ∧ buildPath this None (Some s) = basePath this +:+ "/" +:+ s
       ∧ buildPath this (Some i) (Some s)
         = basePath this +:+ "/" +:+ i +:+ "/" +:+ s).
Proof.
  split; [|split; [done|split; [|split; [done|]]]].
  - unfold buildPath.
    destruct id as [[|c i]|], suffix as [[|d s]|];
      first [apply prefix_refl | apply prefix_app
            | eapply prefix_trans; apply prefix_app].
  - unfold buildPath. by destruct id as [[|c i]|].
  - intros [|c i] [|d s] Hi Hs; try done. unfold buildPath.
    split; [done|]. split; [done|]. by rewrite !string_app_assoc.
Qed.

Lemma buildPath_segments_witness :
  buildPath {| http := sample_client; basePath := "/customers" |}
    (Some "cus_1") (Some "payment_methods")
  = "/customers/cus_1/payment_methods".
Proof.
  destruct (buildPath_segments
              {| http := sample_client; basePath := "/customers" |} None None)
    as (_ & _ & _ & _ & H).
  exact (proj2 (proj2 (H "cus_1" "payment_methods"
                         ltac:(discriminate) ltac:(discriminate)))).
Defined.

(** ** The key transform does not merge camelCase keys *)

Lemma to_lower_injective c1 c2 :
  is_upper c1 = true → is_upper c2 = true →
  to_lower c1 = to_lower c2 → c1 = c2.
Proof.
  unfold is_upper, to_lower. intros H1 H2 Heq.
  apply andb_true_iff in H1 as [_ H1]. apply andb_true_iff in H2 as [_ H2].
  apply N.leb_le in H1, H2.
  apply (f_equal N_of_ascii) in Heq.
  rewrite !N_ascii_embedding in Heq by lia.
  rewrite <- (ascii_N_embedding c1), <- (ascii_N_embedding c2).
  f_equal. lia.
Qed.

Lemma is_upper_underscore : is_upper "_" = false.
Proof. reflexivity. Qed.

(** X2.  On keys that contain no underscore the key transform is
    injective: two different camelCase keys never receive the same
    transformed key. *)
Theorem snakeKey_injective_without_underscore (k1 k2 : string) :
  no_underscore k1 = true → no_underscore k2 = true →
  snakeKey k1 = snakeKey k2 → k1 = k2.
Proof.
  revert k2. induction k1 as [|c1 r1 IH]; intros [|c2 r2] H1 H2 Heq.
  - done.
  - simpl in Heq. by destruct (is_upper c2).
  - simpl in Heq. by destruct (is_upper c1).
  - cbn [no_underscore] in H1, H2.
    apply andb_true_iff in H1 as [U1 H1]. apply andb_true_iff in H2 as [U2 H2].
    apply negb_true_iff in U1, U2.
    cbn [snakeKey] in Heq.
    destruct (is_upper c1) eqn:E1, (is_upper c2) eqn:E2.
    + injection Heq as Hl Hr. f_equal; [by apply to_lower_injective | by apply IH].
    + injection Heq as Hc _. subst c2. by rewrite Ascii.eqb_refl in U2.
    + injection Heq as Hc _. subst c1. by rewrite Ascii.eqb_refl in U1.
    + injection Heq as Hc Hr. f_equal; [done | by apply IH].
Qed.

Lemma snakeKey_injective_without_underscore_witness :
  snakeKey "firstName" ≠ snakeKey "lastName".
Proof.
  intros Heq.
  pose proof (snakeKey_injective_without_underscore "firstName" "lastName"
                eq_refl eq_refl Heq) as H.
  discriminate H.
Defined.

(** ** [toSnakeCase] on records whose keys do not collide *)

Lemma stored_spec kv :
  stored kv = true ↔ present kv.2 = true ∧ snakeKey kv.1 ≠ "__proto__".
Proof.
  unfold stored. rewrite andb_true_iff, negb_true_iff. by rewrite String.eqb_neq.
Qed.

Lemma fold_snakeStep_distinct o acc :
  "__proto__" ∉ keys acc →
  NoDup (keys acc ++ map (λ kv, snakeKey kv.1) (List.filter stored o)) →
  fold_left snakeStep o acc
  = acc ++ map (λ kv, (snakeKey kv.1, shapeValue kv.2)) (List.filter stored o).
Proof.
  revert acc. induction o as [|[k v] o IH]; intros acc Hproto Hnd.
  - simpl. by rewrite app_nil_r.
  - cbn [fold_left List.filter]. unfold snakeStep at 2. cbn [fst snd].
    cbn [List.filter] in Hnd.
    destruct (stored (k, v)) eqn:Hs.
    + apply stored_spec in Hs as [Hv Hk]. cbn [fst snd] in Hv, Hk. rewrite Hv.
      cbn [map fst] in Hnd.
      assert (snakeKey k ∉ keys acc) as Hfresh.
      { apply NoDup_app in Hnd as (_ & Hdisj & _). intros Hin.
        apply (Hdisj _ Hin). left. }
      rewrite (obj_set_fresh acc _ _ Hk Hfresh). rewrite IH.
      * cbn [map fst snd]. by rewrite <- app_assoc.
      * unfold keys. rewrite map_app. cbn [map fst].
        rewrite elem_of_app, list_elem_of_singleton. intros [?|?]; [done|].
        by apply Hk.
      * unfold keys in *. rewrite map_app. cbn [map fst].
        by rewrite <- app_assoc.
    + destruct (present v) eqn:Hv; [|by apply IH].
      assert (snakeKey k = "__proto__") as ->.
      { unfold stored in Hs. cbn [fst snd] in Hs. rewrite Hv in Hs.
        apply negb_false_iff in Hs. by apply String.eqb_eq. }
      rewrite obj_set_proto by done. by apply IH.
Qed.

(** X3.  [toSnakeCase] stores the entries whose value is neither
    [undefined] nor [null] and whose transformed key is not [__proto__].
    When these entries have pairwise different transformed keys,
    [toSnakeCase] returns exactly them, in the order of the input, each
    with its key transformed and its value shaped: none of them is lost,
    merged or moved. *)
Theorem toSnakeCase_without_collision (o : obj) :
  NoDup (map (λ kv, snakeKey kv.1) (List.filter stored o)) →
  toSnakeCase o
  = map (λ kv, (snakeKey kv.1, shapeValue kv.2)) (List.filter stored o).
Proof.
  intros Hnd. unfold toSnakeCase.
  rewrite fold_snakeStep_distinct; [done | apply not_elem_of_nil | done].
Qed.

Lemma toSnakeCase_without_collision_witness :
  toSnakeCase [("firstName", JStr "Ana"); ("phone", JNull);
               ("__proto__", JObj [("fooBar", JNum 2)]);
               ("defaultPaymentMethodId", JStr "pm_1")]
  = [("first_name", JStr "Ana"); ("default_payment_method_id", JStr "pm_1")].
Proof.
  rewrite toSnakeCase_without_collision; [reflexivity|].
  vm_compute. repeat constructor; rewrite ?elem_of_cons, ?elem_of_nil;
    intros H; repeat destruct H as [H|H]; try discriminate H; done.
Defined.

(** With pairwise different transformed keys, the field stored for an
    entry of the input is its shaped value, or nothing when the value is
    absent. *)
Lemma toSnakeCase_lookup_distinct o k v :
  NoDup (map (λ kv, snakeKey kv.1) o) → (k, v) ∈ o →
  snakeKey k ≠ "__proto__" →
  obj_get (toSnakeCase o) (snakeKey k)
  = if present v then Some (shapeValue v) else None.
Proof.
  intros Hnd Hin Hproto.
  assert (∀ k2 v2, (k2, v2) ∈ o → snakeKey k2 = snakeKey k → (k2, v2) = (k, v))
    as Huniq.
  { clear -Hnd Hin. induction o as [|[k0 v0] o IH]; [by apply elem_of_nil in Hin|].
    cbn [map fst] in Hnd. apply NoDup_cons in Hnd as [Hnot Hnd].
    intros k2 v2 Hin2 Heq.
    apply elem_of_cons in Hin as [[= -> ->]|Hin];
      apply elem_of_cons in Hin2 as [[= -> ->]|Hin2].
    - done.
    - exfalso. apply Hnot. rewrite <- Heq.
      apply (list_elem_of_fmap_2 (λ kv : string * value, snakeKey kv.1) _ _ Hin2).
    - exfalso. apply Hnot. rewrite Heq.
      apply (list_elem_of_fmap_2 (λ kv : string * value, snakeKey kv.1) _ _ Hin).
    - by apply IH. }
  destruct (present v) eqn:Hv.
  - apply list_elem_of_split in Hin as (pre & post & ->).
    apply toSnakeCase_last_write; [done | done |].
    intros k2 v2 Hin2 _ Heq.
    rewrite map_app in Hnd. cbn [map fst] in Hnd.
    apply NoDup_app in Hnd as (_ & _ & Hnd). apply NoDup_cons in Hnd as [Hnot _].
    apply Hnot. rewrite <- Heq.
    apply (list_elem_of_fmap_2 (λ kv : string * value, snakeKey kv.1) _ _ Hin2).
  - destruct (obj_get (toSnakeCase o) (snakeKey k)) as [w|] eqn:Hget; [|done].
    assert (is_Some (obj_get (toSnakeCase o) (snakeKey k))) as Hsome by eauto.
    apply toSnakeCase_has_key in Hsome as (k2 & v2 & Hin2 & Hp & Heq & _).
    injection (Huniq k2 v2 Hin2 Heq) as -> ->. congruence.
Qed.

(** ** Records already in the form of the API *)

Lemma distinct_NoDup l : distinct l = true → NoDup l.
Proof.
  induction l as [|x l IH]; [intros _; apply NoDup_nil_2|].
  cbn [distinct]. intros [Hx Hl]%andb_true_iff.
  apply NoDup_cons. split; [|by apply IH].
  intros Hin. apply negb_true_iff in Hx.
  assert (existsb (String.eqb x) l = true) as Hex; [|congruence].
  apply existsb_exists. exists x. split; [by apply list_elem_of_In|].
  apply String.eqb_refl.
Qed.

(** X4.  A record that is already in the form the API expects (keys
    pairwise different, free of uppercase letters and other than
    [__proto__], no [undefined] or [null] field, at every level reached
    through objects) is returned by [toSnakeCase] as it is. *)
Theorem toSnakeCase_api_form_unchanged (o : obj) :
  api_form (JObj o) = true → toSnakeCase o = o.
Proof.
  assert (∀ v, api_form v = true → shapeValue v = v) as Hshape.
  { induction v as [| | | | | l _ | o' IH] using value_nested_ind; try done.
    cbn [api_form]. intros [Hd Hall]%andb_true_iff.
    rewrite shapeValue_object. f_equal.
    apply toSnakeCase_fixed; [by apply distinct_NoDup|].
    rewrite forallb_forall in Hall. rewrite Forall_forall in IH.
    apply Forall_forall. intros [k v] Hin.
    specialize (Hall (k, v) (proj1 (list_elem_of_In _ _) Hin)).
    apply andb_true_iff in Hall as [[[Hk Hn]%andb_true_iff Hp]%andb_true_iff Ha].
    cbn [fst snd] in *. split; [done|].
    split; [by apply String.eqb_neq, negb_true_iff|]. split; [done|].
    apply (IH (k, v) Hin Ha). }
  intros Hform. pose proof (Hshape (JObj o) Hform) as H.
  rewrite shapeValue_object in H. by injection H.
Qed.

Lemma toSnakeCase_api_form_unchanged_witness :
  toSnakeCase [("amount", JNum 10000);
               ("billing", JObj [("postal_code", JStr "1000")]);
               ("payment_method_allowed", JArr [JStr "card"; JNull])]
  = [("amount", JNum 10000);
     ("billing", JObj [("postal_code", JStr "1000")]);
     ("payment_method_allowed", JArr [JStr "card"; JNull])].
Proof.
  apply toSnakeCase_api_form_unchanged. reflexivity.
Defined.

(** ** More on the transport *)

Lemma string_app_colon_inj (s t : string) : s +:+ ":" = t +:+ ":" → s = t.
Proof.
  revert t. induction s as [|c s IH]; intros [|d t] H.
  - done.
  - change (":" = String d (t +:+ ":")) in H. injection H as _ H.
    symmetry in H. apply string_app_empty in H as [_ H]. discriminate H.
  - change (String c (s +:+ ":") = ":") in H. injection H as _ H.
    apply string_app_empty in H as [_ H]. discriminate H.
  - change (String c (s +:+ ":") = String d (t +:+ ":")) in H.
    injection H as -> H. f_equal. by apply IH.
Qed.

Lemma encode_injective (s t : string) :
  Base64.encode s = Base64.encode t → s = t.
Proof.
  intros H. apply (f_equal Base64.decode) in H.
  rewrite !decode_encode in H. by injection H.
Qed.

Lemma utf8_injective (s t : string) : utf8 s = utf8 t → s = t.
Proof.
  intros H. apply (f_equal utf8_decode) in H.
  rewrite !utf8_decode_utf8 in H. by injection H.
Qed.

(** X5.  Two clients send the same [Authorization] header only if they
    are configured with the same API key. *)
Theorem getAuthHeader_injective (host : Host) (a b : HttpClient.t) :
  HttpClient.getAuthHeader host a = HttpClient.getAuthHeader host b →
  apiKey (HttpClient.config a) = apiKey (HttpClient.config b).
Proof.
  unfold HttpClient.getAuthHeader. intros H.
  change ("Basic " +:+ ?x) with
    (String "B" (String "a" (String "s" (String "i" (String "c" (String " " x))))))
    in H.
  injection H as H. apply string_app_colon_inj.
  destruct (btoa_defined host).
  - by apply encode_injective.
  - by apply utf8_injective, encode_injective.
Qed.

Lemma getAuthHeader_injective_witness :
  HttpClient.getAuthHeader (scripted_host true [] "{}"
                              (FetchRejected {| err_name := "TypeError";
                                                err_message := "fetch failed" |}))
    sample_client
  ≠ HttpClient.getAuthHeader (scripted_host true [] "{}"
                                (FetchRejected {| err_name := "TypeError";
                                                  err_message := "fetch failed" |}))
      {| HttpClient.config :=
           {| apiKey := "sk_test_abd";
              resolvedBaseUrl := "https://api.paymongo.com/v1";
              isPublicKey := false |} |}.
Proof.
  intros H. apply getAuthHeader_injective in H. discriminate H.
Defined.

(** X6.  When the API answers with a status outside 200..299 and a body
    that is empty, unreadable or not JSON, [request] throws a
    [PayMongoError] that carries the status, the code [unknown_error], the
    message [PayMongo API error (status N)], an empty list of details and
    [null] as raw response. *)
Theorem request_error_without_json_body
    (host : Host) (this : HttpClient.t) (options : RequestOptions)
    (url : string) (response : Response) :
  HttpClient.buildUrl host this (path options) (params options) = Return url →
  fetch host url (HttpClient.requestInit host this options)
    = FetchResolved response →
  ¬ (200 ≤ response_status response ≤ 299)%Z →
  response_text response = None
  ∨ response_text response = Some EmptyString
  ∨ (∃ text, response_text response = Some text
             ∧ JSON_parse host text = None) →
  HttpClient.request host this options
  = Throw (ThrowPayMongoError
             {| PayMongoError.message :=
                  "PayMongo API error (status "
                  +:+ js_toString (JNum (response_status response)) +:+ ")";
                PayMongoError.status := response_status response;
                PayMongoError.code := JStr "unknown_error";
                PayMongoError.errors := JArr [];
                PayMongoError.rawResponse := JNull |}).
Proof.
  intros Hurl Hfetch Hstatus Hbody.
  rewrite (request_after_url host this options url Hurl), Hfetch.
  rewrite (proj2 (response_ok_false response) Hstatus). cbn zeta.
  assert (HttpClient.parseBody host (response_text response) = JNull) as ->.
  { destruct Hbody as [->|[->|(text & -> & Hparse)]]; [done..|].
    unfold HttpClient.parseBody. rewrite Hparse.
    by destruct (text =? EmptyString)%string. }
  reflexivity.
Qed.

Lemma request_error_without_json_body_witness :
  let bad_gateway :=
    scripted_host true [] "{}"
      (FetchResolved {| response_status := 502;
                        response_text := Some "<html>Bad Gateway</html>" |}) in
  HttpClient.request bad_gateway sample_client
    {| method := GET; path := "/payments/pay_1"; body := JUndefined;
       params := None |}
  = Throw (ThrowPayMongoError
             {| PayMongoError.message := "PayMongo API error (status 502)";
                PayMongoError.status := 502;
                PayMongoError.code := JStr "unknown_error";
                PayMongoError.errors := JArr [];
                PayMongoError.rawResponse := JNull |}).
Proof.
  intros bad_gateway.
  apply (request_error_without_json_body bad_gateway sample_client
           {| method := GET; path := "/payments/pay_1"; body := JUndefined;
              params := None |}
           "https://api.paymongo.com/payments/pay_1"
           {| response_status := 502;
              response_text := Some "<html>Bad Gateway</html>" |}
           eq_refl eq_refl).
  - simpl. lia.
  - right. right. exists "<html>Bad Gateway</html>". split; reflexivity.
Defined.

(** ** More on the facade *)

(** X8.  A configuration that resolves gives: as API key the secret key
    when one is given and the public key otherwise, never the empty
    string; public mode exactly when no secret key is given; a key that
    starts with [pk_] in public mode and with [sk_] otherwise; as base URL
    the one given, or [https://api.paymongo.com/v1] when none (or the empty
    string) is given. *)
Theorem resolveConfig_resolved_fields
    (config : PayMongoConfig) (resolved : ResolvedConfig) :
  PayMongo.resolveConfig config = Return resolved →
  apiKey resolved
    = (if PayMongo.given (secretKey config)
       then default EmptyString (secretKey config)
       else default EmptyString (publicKey config))
  ∧ apiKey resolved ≠ EmptyString
  ∧ isPublicKey resolved = negb (PayMongo.given (secretKey config))
  ∧ key_matches_mode resolved = true
  ∧ resolvedBaseUrl resolved
    = (if PayMongo.given (baseUrl config)
       then default EmptyString (baseUrl config)
       else PayMongo.DEFAULT_BASE_URL)
  ∧ resolvedBaseUrl resolved ≠ EmptyString.
Proof.
  unfold PayMongo.resolveConfig, PayMongo.or_else, key_matches_mode.
  destruct (PayMongo.given (secretKey config)) eqn:Hs,
    (PayMongo.given (publicKey config)) eqn:Hp; cbn [negb andb];
    try discriminate;
    match goal with
    | |- context [PayMongo.startsWith ?k ?p] =>
        destruct (PayMongo.startsWith k p) eqn:Hprefix
    end; cbn [negb]; try discriminate; intros [= <-];
    cbn [apiKey isPublicKey resolvedBaseUrl]; rewrite ?Hprefix;
    (split; [done|]); (split; [intros Hk; rewrite Hk in Hprefix; discriminate|]);
    (split; [done|]); (split; [done|]); (split; [done|]);
    unfold PayMongo.given;
    destruct (baseUrl config) as [[|c u]|]; cbn; discriminate.
Qed.

Lemma resolveConfig_resolved_fields_witness :
  let resolved :=
    {| apiKey := "pk_test_abc";
       resolvedBaseUrl := "https://api.paymongo.com/v1";
       isPublicKey := true |} in
  PayMongo.resolveConfig
    {| publicKey := Some "pk_test_abc"; secretKey := None;
       baseUrl := Some EmptyString |} = Return resolved
  ∧ key_matches_mode resolved = true
  ∧ resolvedBaseUrl resolved ≠ EmptyString.
Proof.
  intros resolved. split; [reflexivity|].
  destruct (resolveConfig_resolved_fields
              {| publicKey := Some "pk_test_abc"; secretKey := None;
                 baseUrl := Some EmptyString |} resolved eq_refl)
    as (_ & _ & _ & Hm & _ & Hu).
  split; [exact Hm | exact Hu].
Defined.

(** ** The singleton over any sequence of calls *)

Lemma resolveConfig_key_matches_mode config resolved :
  PayMongo.resolveConfig config = Return resolved →
  key_matches_mode resolved = true.
Proof.
  unfold PayMongo.resolveConfig, PayMongo.or_else, key_matches_mode.
  destruct (PayMongo.given (secretKey config)),
    (PayMongo.given (publicKey config)); cbn [negb andb];
    try discriminate;
    match goal with
    | |- context [PayMongo.startsWith ?k ?p] =>
        destruct (PayMongo.startsWith k p) eqn:Hprefix
    end; cbn [negb]; try discriminate; intros [= <-];
    cbn [apiKey isPublicKey]; by rewrite ?Hprefix.
Qed.

(** A property of clients that every newly constructed client has, and
    that the stored client has, still holds of the stored client after one
    more call. *)
Lemma after_call_keeps (P : PayMongo.t → Prop) st c :
  (∀ config resolved client,
     PayMongo.resolveConfig config = Return resolved →
     PayMongo.config client = resolved →
     HttpClient.config (PayMongo.http client) = resolved →
     P client) →
  (∀ client, PayMongo.instance st = Some client → P client) →
  ∀ client, PayMongo.instance (after_call st c) = Some client → P client.
Proof.
  intros Hnew Hold client. destruct c as [config forceNew|]; cbn [after_call].
  - unfold PayMongo.getInstance.
    assert (PayMongo.instance (PayMongo.storeNew st config).2 = Some client →
            P client) as Hstore.
    { unfold PayMongo.storeNew, PayMongo.new.
      destruct (PayMongo.resolveConfig config) as [rc|e] eqn:Hr.
      - cbn [snd PayMongo.instance]. intros [= <-].
        by apply (Hnew config rc).
      - cbn [snd PayMongo.instance]. apply Hold. }
    destruct (PayMongo.instance st) as [stored|] eqn:Hi; [|exact Hstore].
    destruct (PayMongo.requested forceNew); [exact Hstore|].
    cbn [snd]. rewrite Hi. apply Hold.
  - cbn [PayMongo.resetInstance PayMongo.instance]. discriminate.
Qed.

Lemma after_call_allocated st c :
  (PayMongo.allocated st ≤ PayMongo.allocated (after_call st c))%nat
  ∧ (PayMongo.allocated (after_call st c) ≤ S (PayMongo.allocated st))%nat.
Proof.
  destruct c as [config forceNew|]; cbn [after_call]; [|cbn; lia].
  unfold PayMongo.getInstance.
  assert (PayMongo.allocated (PayMongo.storeNew st config).2
          = S (PayMongo.allocated st)) as Hstore.
  { destruct (PayMongo.resolveConfig config) as [rc|e] eqn:Hr.
    - by destruct (storeNew_success st config rc Hr) as (created & -> & _).
    - by rewrite (storeNew_failure st config e Hr). }
  destruct (PayMongo.instance st) as [stored|]; [|lia].
  destruct (PayMongo.requested forceNew); [lia | cbn [snd]; lia].
Qed.

Lemma after_calls_snoc calls c :
  after_calls (calls ++ [c]) = after_call (after_calls calls) c.
Proof. unfold after_calls. by rewrite fold_left_app. Qed.

(** X9.  After any sequence of [getInstance] and [resetInstance] calls,
    whatever their configurations and whether or not they throw, a stored
    client is one whose key carries the prefix of its mode and whose
    transport uses the client's own configuration; it is one of the
    objects constructed so far, and no more objects have been constructed
    than calls were made. *)
Theorem singleton_invariant (calls : list static_call) :
  PayMongo.well_formed (after_calls calls)
  ∧ (∀ client,
       PayMongo.instance (after_calls calls) = Some client →
       key_matches_mode (PayMongo.config client) = true
       ∧ HttpClient.config (PayMongo.http client) = PayMongo.config client)
  ∧ (PayMongo.allocated (after_calls calls) ≤ length calls)%nat.
Proof.
  induction calls as [|c calls IH] using rev_ind.
  - split; [exact I|]. split; [intros client [=] | done].
  - destruct IH as (Hwf & Hvalid & Hcount). rewrite after_calls_snoc.
    split; [|split].
    + destruct c as [config forceNew|]; cbn [after_call];
        [by apply getInstance_well_formed | exact I].
    + apply after_call_keeps; [|exact Hvalid].
      intros config resolved client Hr Hc Hh. rewrite Hh, Hc.
      split; [|done]. by apply (resolveConfig_key_matches_mode config).
    + rewrite length_app. cbn [length].
      pose proof (after_call_allocated (after_calls calls) c). lia.
Qed.

(** ** Requests of the resource clients *)

(** The call to [fetch] that [request] makes, and what it does with the
    answer. *)
Lemma request_at host this m p b ps u :
  URL_new host p (resolvedBaseUrl (HttpClient.config this)) = Some u →
  HttpClient.request host this
    {| method := m; path := p; body := b; params := ps |}
  = match fetch host (URL_toString (HttpClient.appendParams u ps))
            {| init_method := m;
               init_headers := standard_headers host this;
               init_body :=
                 if truthy b && HttpClient.is_post_or_patch m
                 then Some (JSON_stringify host b) else None |} with
    | FetchRejected error =>
        Throw (ThrowPayMongoNetworkError
                 "Network error while communicating with PayMongo API" error)
    | FetchResolved response =>
        if response_ok response
        then Return (HttpClient.parseBody host (response_text response))
        else
          match PayMongoError.fromResponse (response_status response)
                  (HttpClient.parseBody host (response_text response)) with
          | Return error => Throw (ThrowPayMongoError error)
          | Throw e => Throw e
          end
    end.
Proof.
  intros Hurl.
  rewrite (request_after_url host this _
             (URL_toString (HttpClient.appendParams u ps))).
  - reflexivity.
  - unfold HttpClient.buildUrl. cbn [path params]. by rewrite Hurl.
Qed.

Lemma parseBody_json host text v :
  text ≠ EmptyString → JSON_parse host text = Some v →
  HttpClient.parseBody host (Some text) = v.
Proof.
  intros Hne Hparse. unfold HttpClient.parseBody.
  by rewrite (proj2 (String.eqb_neq _ _) Hne), Hparse.
Qed.

Lemma buildPath_id this id :
  id ≠ EmptyString →
  buildPath this (Some id) None = basePath this +:+ "/" +:+ id.
Proof. by destruct id. Qed.

Lemma buildPath_id_suffix this id suffix :
  id ≠ EmptyString → suffix ≠ EmptyString →
  buildPath this (Some id) (Some suffix)
  = basePath this +:+ "/" +:+ id +:+ "/" +:+ suffix.
Proof.
  destruct id, suffix; try done. intros _ _. unfold buildPath.
  by rewrite !string_app_assoc.
Qed.

(** X10.  The body of [paymentIntents.create] is
    [{ data: { attributes } }] where [currency] is the caller's currency,
    or [PHP] when the caller gives none; each of the other eight known
    fields appears under its underscore name exactly when the caller gives
    a value for it; and no other field of the caller's record is sent. *)
Theorem PaymentIntents_createBody_fields (params : obj) :
  ∃ attributes,
    PaymentIntents.createBody params
    = JObj [("data", JObj [("attributes", JObj attributes)])]
    ∧ obj_get attributes "currency"
      = Some (if present (prop params "currency")
              then shapeValue (prop params "currency")
              else JStr "PHP")
    ∧ (∀ field name,
         (field, name) ∈ [("amount", "amount");
                          ("paymentMethodAllowed", "payment_method_allowed");
                          ("description", "description");
                          ("statementDescriptor", "statement_descriptor");
                          ("metadata", "metadata");
                          ("captureType", "capture_type");
                          ("setupFutureUsage", "setup_future_usage");
                          ("paymentMethodOptions", "payment_method_options")] →
         obj_get attributes name
         = if present (prop params field)
           then Some (shapeValue (prop params field))
           else None)
    ∧ (∀ name,
         is_Some (obj_get attributes name) →
         name ∈ ["amount"; "currency"; "payment_method_allowed"; "description";
                 "statement_descriptor"; "metadata"; "capture_type";
                 "setup_future_usage"; "payment_method_options"]).
Proof.
  eexists. split; [reflexivity|].
  match goal with
  | |- obj_get (toSnakeCase ?l) _ = _ ∧ _ =>
      set (literal := l);
      assert (NoDup (map (λ kv : string * value, snakeKey kv.1) literal)) as Hnd
        by (apply distinct_NoDup; reflexivity)
  end.
  split; [|split].
  - change (obj_get (toSnakeCase literal) "currency")
      with (obj_get (toSnakeCase literal) (snakeKey "currency")).
    rewrite (toSnakeCase_lookup_distinct literal "currency"
               (js_coalesce (prop params "currency") (JStr "PHP")) Hnd).
    + unfold js_coalesce. by destruct (present (prop params "currency")) eqn:Hc;
        [rewrite Hc|].
    + subst literal. apply list_elem_of_In. simpl. tauto.
    + discriminate.
  - intros field name Hin.
    repeat (apply elem_of_cons in Hin as [[= -> ->]|Hin];
            [match goal with
             | |- obj_get _ ?n = _ =>
                 match goal with
                 | |- context [prop params ?f] =>
                     change n with (snakeKey f);
                     apply (toSnakeCase_lookup_distinct literal f
                              (prop params f) Hnd);
                     [subst literal; apply list_elem_of_In; simpl; tauto
                     | discriminate]
                 end
             end|]).
    by apply elem_of_nil in Hin.
  - intros name Hsome.
    apply toSnakeCase_has_key in Hsome as (k & v & Hin & _ & <- & _).
    subst literal.
    repeat (apply elem_of_cons in Hin as [[= -> _]|Hin];
            [apply list_elem_of_In; simpl; tauto|]).
    by apply elem_of_nil in Hin.
Qed.

Lemma PaymentIntents_createBody_fields_witness :
  ∃ attributes,
    PaymentIntents.createBody
      [("amount", JNum 10000);
       ("paymentMethodAllowed", JArr [JStr "card"; JStr "gcash"]);
       ("customerId", JStr "cus_1")]
    = JObj [("data", JObj [("attributes", JObj attributes)])]
    ∧ obj_get attributes "currency" = Some (JStr "PHP")
    ∧ obj_get attributes "amount" = Some (JNum 10000)
    ∧ obj_get attributes "description" = None
    ∧ ¬ is_Some (obj_get attributes "customer_id").
Proof.
  destruct (PaymentIntents_createBody_fields
              [("amount", JNum 10000);
               ("paymentMethodAllowed", JArr [JStr "card"; JStr "gcash"]);
               ("customerId", JStr "cus_1")])
    as (attributes & Hbody & Hcurrency & Hfields & Honly).
  exists attributes. split; [exact Hbody|]. split; [exact Hcurrency|].
  split; [apply (Hfields "amount" "amount"); left|].
  split; [apply (Hfields "description" "description"); do 2 right; left|].
  intros Hsome. apply Honly in Hsome.
  repeat (apply elem_of_cons in Hsome as [Hsome|Hsome]; [discriminate Hsome|]).
  by apply elem_of_nil in Hsome.
Defined.

(** X11.  [paymentMethods.create] sends [billing] exactly as the caller
    gives it, keys and absent fields included, whereas
    [paymentMethods.update] sends its key-transformed form; and [create]
    sends a [details] block only when the type is the string [card] and
    details are given, built from the four card fields. *)
Theorem PaymentMethods_create_billing_verbatim (params : obj) (billing : obj) :
  prop params "billing" = JObj billing →
  obj_get (PaymentMethods.createAttributes params) "billing"
    = Some (JObj billing)
  ∧ (∃ attributes,
       PaymentMethods.updateBody params
       = JObj [("data", JObj [("attributes", JObj attributes)])]
       ∧ obj_get attributes "billing" = Some (JObj (toSnakeCase billing)))
  ∧ obj_get (PaymentMethods.createAttributes params) "details"
    = (if truthy (prop params "details") && is_string (prop params "type") "card"
       then
         Some (JObj [("card_number",
                      js_member (prop params "details") "cardNumber");
                     ("exp_month", js_member (prop params "details") "expMonth");
                     ("exp_year", js_member (prop params "details") "expYear");
                     ("cvc", js_member (prop params "details") "cvc")])
       else None).
Proof.
  intros Hb. split; [|split].
  - unfold PaymentMethods.createAttributes. rewrite Hb.
    by destruct (truthy (prop params "details")
                 && is_string (prop params "type") "card").
  - eexists. split; [reflexivity|].
    change (obj_get ?o "billing") with (obj_get o (snakeKey "billing")).
    rewrite (toSnakeCase_lookup_distinct _ "billing" (prop params "billing")).
    + by rewrite Hb.
    + apply distinct_NoDup. reflexivity.
    + left.
    + discriminate.
  - unfold PaymentMethods.createAttributes.
    by destruct (truthy (prop params "details")
                 && is_string (prop params "type") "card").
Qed.

Lemma PaymentMethods_create_billing_verbatim_witness :
  let params :=
    [("type", JStr "gcash");
     ("billing", JObj [("postalCode", JStr "1000"); ("phone", JNull)]);
     ("details", JObj [("cardNumber", JStr "4343434343434345")])] in
  obj_get (PaymentMethods.createAttributes params) "billing"
    = Some (JObj [("postalCode", JStr "1000"); ("phone", JNull)])
  ∧ obj_get (PaymentMethods.createAttributes params) "details" = None.
Proof.
  intros params.
  destruct (PaymentMethods_create_billing_verbatim params
              [("postalCode", JStr "1000"); ("phone", JNull)] eq_refl)
    as (Hcreate & _ & Hdetails).
  split; [exact Hcreate | exact Hdetails].
Defined.

(** ** Query parameters of the list operations *)

Lemma truthy_defined v : truthy v = true → defined v = true.
Proof. by destruct v. Qed.

Lemma all_truthy_all_appended (q : obj) :
  Forall (λ kv, truthy kv.2 = true) q →
  List.filter (λ kv, defined kv.2) q = q.
Proof.
  induction 1 as [|[k v] q Hv _ IH]; [done|].
  cbn [List.filter snd]. cbn [snd] in Hv. by rewrite (truthy_defined v Hv), IH.
Qed.

(** X12.  The query of [customers.list] has a parameter for [after],
    [before], [limit], [email] and [phone] exactly when the caller's value
    for it is truthy, and then with that value; so a limit of [0] or an
    empty cursor is left out.  It has no other parameter, and every
    parameter it has reaches the URL. *)
Theorem Customers_listQuery_truthy_only (params : option obj) :
  (∀ name,
     name ∈ ["after"; "before"; "limit"; "email"; "phone"] →
     obj_get (Customers.listQuery params) name
     = if truthy (opt_prop params name)
       then Some (opt_prop params name) else None)
  ∧ (∀ name,
       is_Some (obj_get (Customers.listQuery params) name) →
       name ∈ ["after"; "before"; "limit"; "email"; "phone"])
  ∧ (opt_prop params "limit" = JNum 0 →
     obj_get (Customers.listQuery params) "limit" = None)
  ∧ List.filter (λ kv, defined kv.2) (Customers.listQuery params)
    = Customers.listQuery params.
Proof.
  unfold Customers.listQuery, setIfTruthy.
  set (a := opt_prop params "after"). set (b := opt_prop params "before").
  set (l := opt_prop params "limit"). set (e := opt_prop params "email").
  set (p := opt_prop params "phone").
  split; [|split; [|split]].
  - intros name Hin.
    repeat (apply elem_of_cons in Hin as [->|Hin];
            [fold a b l e p;
             destruct (truthy a), (truthy b), (truthy l), (truthy e), (truthy p);
             reflexivity|]).
    by apply elem_of_nil in Hin.
  - intros name.
    destruct (truthy a), (truthy b), (truthy l), (truthy e), (truthy p);
      rewrite ?obj_set_ordinary by discriminate;
      cbn [obj_put String.eqb Ascii.eqb Bool.eqb]; cbn [obj_get];
      repeat match goal with
             | |- context [(?k =? name)%string] =>
                 destruct (String.eqb_spec k name) as [<-|_];
                 [intros _; apply list_elem_of_In; simpl; tauto|]
             end; by intros [? [=]].
  - intros Hl. rewrite Hl. cbn [truthy Z.eqb negb].
    by destruct (truthy a), (truthy b), (truthy e), (truthy p).
  - apply all_truthy_all_appended.
    destruct (truthy a) eqn:Ta, (truthy b) eqn:Tb, (truthy l) eqn:Tl,
      (truthy e) eqn:Te, (truthy p) eqn:Tp;
      rewrite ?obj_set_ordinary by discriminate;
      cbn [obj_put String.eqb Ascii.eqb Bool.eqb]; repeat constructor; done.
Qed.

Lemma Customers_listQuery_truthy_only_witness :
  let params := Some [("after", JStr "cus_1"); ("limit", JNum 0);
                      ("email", JStr "a@b.ph")] in
  obj_get (Customers.listQuery params) "after" = Some (JStr "cus_1")
  ∧ obj_get (Customers.listQuery params) "limit" = None.
Proof.
  intros params.
  destruct (Customers_listQuery_truthy_only params) as (Hget & _ & Hzero & _).
  split; [apply (Hget "after"); left | apply Hzero; reflexivity].
Defined.

(** X13.  The query of [refunds.list] carries the caller's [paymentId]
    under the name [payment_id], exactly when it is truthy, and never
    under the name [paymentId]; [after], [before] and [limit] are carried
    under their own names exactly when truthy. *)
Theorem Refunds_listQuery_payment_id (params : option obj) :
  obj_get (Refunds.listQuery params) "payment_id"
    = (if truthy (opt_prop params "paymentId")
       then Some (opt_prop params "paymentId") else None)
  ∧ obj_get (Refunds.listQuery params) "paymentId" = None
  ∧ (∀ name,
       name ∈ ["after"; "before"; "limit"] →
       obj_get (Refunds.listQuery params) name
       = if truthy (opt_prop params name)
         then Some (opt_prop params name) else None)
  ∧ List.filter (λ kv, defined kv.2) (Refunds.listQuery params)
    = Refunds.listQuery params.
Proof.
  unfold Refunds.listQuery, setIfTruthy.
  set (a := opt_prop params "after"). set (b := opt_prop params "before").
  set (l := opt_prop params "limit"). set (p := opt_prop params "paymentId").
  split; [|split; [|split]].
  - by destruct (truthy a), (truthy b), (truthy l), (truthy p).
  - by destruct (truthy a), (truthy b), (truthy l), (truthy p).
  - intros name Hin.
    repeat (apply elem_of_cons in Hin as [->|Hin];
            [fold a b l;
             destruct (truthy a), (truthy b), (truthy l), (truthy p);
             reflexivity|]).
    by apply elem_of_nil in Hin.
  - apply all_truthy_all_appended.
    destruct (truthy a) eqn:Ta, (truthy b) eqn:Tb, (truthy l) eqn:Tl,
      (truthy p) eqn:Tp;
      rewrite ?obj_set_ordinary by discriminate;
      cbn [obj_put String.eqb Ascii.eqb Bool.eqb]; repeat constructor; done.
Qed.

(** ** Operations end to end *)



(** X15.  When the API answers [customers.delete] with a status in
    200..299 and an empty or unreadable body (as a 204 does), the
    operation does not return: reading [data] of the [null] response
    throws a [TypeError]. *)
Theorem Customers_delete_empty_body_throws
    (host : Host) (this : BaseResource.t) (id : string)
    (u : URL) (response : Response) :
  id ≠ EmptyString →
  URL_new host (basePath this +:+ "/" +:+ id)
    (resolvedBaseUrl (HttpClient.config (http this))) = Some u →
  fetch host (URL_toString u)
    {| init_method := DELETE;
       init_headers := standard_headers host (http this);
       init_body := None |} = FetchResolved response →
  (200 ≤ response_status response ≤ 299)%Z →
  response_text response = Some EmptyString ∨ response_text response = None →
  Customers.delete host this id = Throw (cannot_read JNull "data").
Proof.
  intros Hid Hurl Hfetch Hok Hbody.
  unfold Customers.delete, HttpClient.delete.
  rewrite (buildPath_id this id Hid).
  rewrite (request_at host (http this) DELETE _ JUndefined None u Hurl).
  cbn [truthy andb HttpClient.appendParams]. rewrite Hfetch.
  rewrite (proj2 (response_ok_spec response) Hok).
  by destruct Hbody as [->| ->].
Qed.

Lemma Customers_delete_empty_body_throws_witness :
  Customers.delete
    (scripted_host true [] "{}"
       (FetchResolved {| response_status := 204;
                         response_text := Some EmptyString |}))
    {| http := sample_client; basePath := "/customers" |} "cus_1"
  = Throw (ThrowTypeError
             {| err_name := "TypeError";
                err_message := "Cannot read properties of null (reading 'data')" |}).
Proof.
  apply (Customers_delete_empty_body_throws _
           {| http := sample_client; basePath := "/customers" |} "cus_1"
           {| url_base := "https://api.paymongo.com/customers/cus_1";
              url_query := None; url_searchParams := [];
              url_fragment := None |}
           {| response_status := 204; response_text := Some EmptyString |});
    [discriminate | reflexivity | reflexivity | simpl; lia | by left].
Defined.

(** ** Checkout sessions *)

Lemma mapLineItems_present items :
  Forall (λ item, present item = true) items →
  CheckoutSessions.mapLineItems items
  = Return
      (map (λ item,
              JObj [("amount", js_member item "amount");
                    ("currency",
                     js_coalesce (js_member item "currency") (JStr "PHP"));
                    ("description", js_member item "description");
                    ("images", js_member item "images");
                    ("name", js_member item "name");
                    ("quantity", js_member item "quantity")])
         items).
Proof.
  induction 1 as [|item items Hitem _ IH]; [done|].
  cbn [CheckoutSessions.mapLineItems map]. rewrite IH.
  unfold CheckoutSessions.lineItem, read_member. by rewrite Hitem.
Qed.

Lemma mapLineItems_absent items :
  ¬ Forall (λ item, present item = true) items →
  ∃ e, CheckoutSessions.mapLineItems items = Throw (ThrowTypeError e).
Proof.
  induction items as [|item items IH]; intros Hnot.
  - destruct Hnot. constructor.
  - cbn [CheckoutSessions.mapLineItems].
    destruct (present item) eqn:Hitem.
    + destruct IH as [e He].
      { intros Hall. apply Hnot. by constructor. }
      unfold CheckoutSessions.lineItem, read_member. rewrite Hitem, He.
      by eexists.
    + unfold CheckoutSessions.lineItem, read_member. rewrite Hitem.
      by eexists.
Qed.

(** X16.  [checkoutSessions.create] turns the caller's line items, in
    order and one for one, into items with the six fields [amount],
    [currency], [description], [images], [name] and [quantity], with [PHP]
    for an item that gives no currency.  When [lineItems] is not an array,
    or an item is [undefined] or [null], the operation throws a
    [TypeError] whatever the host does, before any request. *)
Theorem CheckoutSessions_create_lineItems (params : obj) :
  (∀ items,
     prop params "lineItems" = JArr items →
     Forall (λ item, present item = true) items →
     ∃ mapped,
       CheckoutSessions.lineItems params = Return mapped
       ∧ length mapped = length items
       ∧ (∀ i item,
            items !! i = Some item →
            mapped !! i
            = Some (JObj [("amount", js_member item "amount");
                          ("currency",
                           if present (js_member item "currency")
                           then js_member item "currency" else JStr "PHP");
                          ("description", js_member item "description");
                          ("images", js_member item "images");
                          ("name", js_member item "name");
                          ("quantity", js_member item "quantity")]))
       ∧ ∀ host this,
           CheckoutSessions.create host this params
           = (response ← HttpClient.post host (http this) (basePath this)
                           (CheckoutSessions.createBody params mapped);
              read_member response "data"))
  ∧ ((∀ items, prop params "lineItems" = JArr items →
               ¬ Forall (λ item, present item = true) items) →
     ∃ e, ∀ host this,
       CheckoutSessions.create host this params = Throw (ThrowTypeError e)).
Proof.
  split.
  - intros items Hitems Hall. eexists. split; [|split; [|split]].
    + unfold CheckoutSessions.lineItems. rewrite Hitems.
      by apply mapLineItems_present.
    + apply length_map.
    + intros i item Hi. rewrite list_lookup_fmap, Hi. reflexivity.
    + intros host this. unfold CheckoutSessions.create,
        CheckoutSessions.lineItems.
      rewrite Hitems, (mapLineItems_present items Hall). reflexivity.
  - intros Hbad. unfold CheckoutSessions.create, CheckoutSessions.lineItems.
    destruct (prop params "lineItems") as [| |b|n|s|items|o] eqn:Hp;
      try (eexists; intros host this; reflexivity).
    destruct (mapLineItems_absent items (Hbad items eq_refl)) as [e He].
    exists e. intros host this. by rewrite He.
Qed.

Lemma CheckoutSessions_create_lineItems_witness :
  CheckoutSessions.lineItems
    [("lineItems",
      JArr [JObj [("name", JStr "Plan"); ("amount", JNum 99900);
                  ("quantity", JNum 1)]])]
  = Return [JObj [("amount", JNum 99900); ("currency", JStr "PHP");
                  ("description", JUndefined); ("images", JUndefined);
                  ("name", JStr "Plan"); ("quantity", JNum 1)]]
  ∧ ∃ e, ∀ host this,
      CheckoutSessions.create host this [("lineItems", JArr [JNull])]
      = Throw (ThrowTypeError e).
Proof.
  split.
  - destruct (CheckoutSessions_create_lineItems
                [("lineItems",
                  JArr [JObj [("name", JStr "Plan"); ("amount", JNum 99900);
                              ("quantity", JNum 1)]])]) as [Hok _].
    destruct (Hok _ eq_refl) as (mapped & Hret & Hlen & Hmapped & _);
      [repeat constructor|].
    rewrite Hret. f_equal.
    destruct mapped as [|m [|m' mapped]]; [discriminate Hlen| |discriminate Hlen].
    pose proof (Hmapped 0%nat _ eq_refl) as H0. injection H0 as ->.
    reflexivity.
  - destruct (CheckoutSessions_create_lineItems [("lineItems", JArr [JNull])])
      as [_ Hbad].
    apply Hbad. intros items [= <-] Hall.
    apply Forall_cons in Hall as [Hnull _]. discriminate Hnull.
Defined.

(** ** Payment intents end to end *)

Lemma string_app_nil_r (s : string) : s +:+ EmptyString = s.
Proof.
  induction s as [|c s IH]; [done|].
  change (String c (s +:+ EmptyString) = String c s). by rewrite IH.
Qed.

(** X17.  [paymentIntents.retrieve] sends a [GET] without body to the
    path of the intent; a non-empty client key goes into the query string
    as [client_key], percent-encoded, and an empty or missing one leaves
    the URL without query.  On a status in 200..299 with a JSON object the
    operation returns the object's [data]. *)
Theorem PaymentIntents_retrieve_client_key
    (host : Host) (this : BaseResource.t) (id : string)
    (clientKey : option string) (u : URL) (response : Response)
    (text : string) (answer : obj) :
  id ≠ EmptyString →
  URL_new host (basePath this +:+ "/" +:+ id)
    (resolvedBaseUrl (HttpClient.config (http this))) = Some u →
  url_query u = None → url_searchParams u = [] → url_fragment u = None →
  fetch host
    (match clientKey with
     | Some (String _ _ as key) =>
         url_base u +:+ "?client_key=" +:+ FormUrlEncoded.encode key
     | _ => url_base u
     end)
    {| init_method := GET;
       init_headers := standard_headers host (http this);
       init_body := None |} = FetchResolved response →
  (200 ≤ response_status response ≤ 299)%Z →
  response_text response = Some text → text ≠ EmptyString →
  JSON_parse host text = Some (JObj answer) →
  PaymentIntents.retrieve host this id clientKey = Return (prop answer "data").
Proof.
  intros Hid Hurl Hq Hsp Hfr Hfetch Hok Htext Hne Hparse.
  unfold PaymentIntents.retrieve, HttpClient.get. cbn zeta.
  rewrite (buildPath_id this id Hid).
  rewrite (request_at host (http this) GET _ JUndefined _ u Hurl).
  cbn [truthy andb].
  assert (URL_toString
            (HttpClient.appendParams u (PaymentIntents.retrieveParams clientKey))
          = match clientKey with
            | Some (String _ _ as key) =>
                url_base u +:+ "?client_key=" +:+ FormUrlEncoded.encode key
            | _ => url_base u
            end) as ->.
  { destruct clientKey as [[|c key]|]; cbn [PaymentIntents.retrieveParams
      HttpClient.appendParams fold_left].
    - unfold URL_toString. rewrite Hq, Hfr. by rewrite !string_app_nil_r.
    - unfold HttpClient.appendParam. cbn [snd fst defined js_toString].
      unfold URL_toString. rewrite searchParams_append_query.
      cbn [searchParams_append url_base url_fragment]. rewrite Hsp, Hfr.
      cbn [app FormUrlEncoded.serialize].
      rewrite string_app_nil_r. reflexivity.
    - unfold URL_toString. rewrite Hq, Hfr. by rewrite !string_app_nil_r. }
  rewrite Hfetch, (proj2 (response_ok_spec response) Hok), Htext.
  by rewrite (parseBody_json host text (JObj answer) Hne Hparse).
Qed.

Lemma PaymentIntents_retrieve_client_key_witness :
  let intent := JObj [("data", JObj [("id", JStr "pi_1")])] in
  let host :=
    scripted_host true [("INTENT", intent)] "{}"
      (FetchResolved {| response_status := 200;
                        response_text := Some "INTENT" |}) in
  PaymentIntents.retrieve host
    {| http := sample_client; basePath := "/payment_intents" |}
    "pi_1" (Some "pi_1_client_abc")
  = Return (JObj [("id", JStr "pi_1")]).
Proof.
  intros intent host.
  apply (PaymentIntents_retrieve_client_key host
           {| http := sample_client; basePath := "/payment_intents" |}
           "pi_1" (Some "pi_1_client_abc")
           {| url_base := "https://api.paymongo.com/payment_intents/pi_1";
              url_query := None; url_searchParams := [];
              url_fragment := None |}
           {| response_status := 200; response_text := Some "INTENT" |}
           "INTENT" [("data", JObj [("id", JStr "pi_1")])]);
    try reflexivity; try discriminate. simpl; lia.
Defined.

(** X18.  [paymentIntents.create] sends a [POST] to the base path with
    the serialized body of [createBody].  A network failure comes out of
    the operation as the transport throws it; on a status outside 200..299
    the operation throws the [PayMongoError] that [fromResponse] builds
    from the answer, or the [TypeError] of [fromResponse] when it builds
    none; on a status in 200..299 with a JSON object the operation returns
    the object's [data]. *)
Theorem PaymentIntents_create_outcomes
    (host : Host) (this : BaseResource.t) (params : obj) (u : URL) :
  URL_new host (basePath this)
    (resolvedBaseUrl (HttpClient.config (http this))) = Some u →
  let sent :=
    fetch host (URL_toString u)
      {| init_method := POST;
         init_headers := standard_headers host (http this);
         init_body :=
           Some (JSON_stringify host (PaymentIntents.createBody params)) |} in
  (∀ cause,
     sent = FetchRejected cause →
     PaymentIntents.create host this params
     = Throw (ThrowPayMongoNetworkError
                "Network error while communicating with PayMongo API" cause))
  ∧ (∀ response,
       sent = FetchResolved response →
       ¬ (200 ≤ response_status response ≤ 299)%Z →
       PaymentIntents.create host this params
       = match PayMongoError.fromResponse (response_status response)
                 (HttpClient.parseBody host (response_text response)) with
         | Return error => Throw (ThrowPayMongoError error)
         | Throw e => Throw e
         end)
  ∧ (∀ response text answer,
       sent = FetchResolved response →
       (200 ≤ response_status response ≤ 299)%Z →
       response_text response = Some text → text ≠ EmptyString →
       JSON_parse host text = Some (JObj answer) →
       PaymentIntents.create host this params = Return (prop answer "data")).
Proof.
  intros Hurl sent.
  assert (PaymentIntents.create host this params
          = (response ← match sent with
                        | FetchRejected error =>
                            Throw (ThrowPayMongoNetworkError
                                     "Network error while communicating with PayMongo API"
                                     error)
                        | FetchResolved response =>
                            if response_ok response
                            then Return (HttpClient.parseBody host
                                           (response_text response))
                            else
                              match PayMongoError.fromResponse
                                      (response_status response)
                                      (HttpClient.parseBody host
                                         (response_text response)) with
                              | Return error => Throw (ThrowPayMongoError error)
                              | Throw e => Throw e
                              end
                        end;
             read_member response "data")) as ->.
  { unfold PaymentIntents.create, HttpClient.post. cbn zeta.
    change (buildPath this None None) with (basePath this).
    by rewrite (request_at host (http this) POST _ _ None u Hurl). }
  split; [|split].
  - by intros cause ->.
  - intros response -> Hnot.
    rewrite (proj2 (response_ok_false response) Hnot).
    by destruct (PayMongoError.fromResponse _ _).
  - intros response text answer -> Hok Htext Hne Hparse.
    rewrite (proj2 (response_ok_spec response) Hok), Htext.
    by rewrite (parseBody_json host text (JObj answer) Hne Hparse).
Qed.

Lemma PaymentIntents_create_outcomes_witness :
  let host :=
    scripted_host true [] "{}"
      (FetchRejected {| err_name := "TypeError"; err_message := "fetch failed" |}) in
  PaymentIntents.create host
    {| http := sample_client; basePath := "/payment_intents" |}
    [("amount", JNum 10000)]
  = Throw (ThrowPayMongoNetworkError
             "Network error while communicating with PayMongo API"
             {| err_name := "TypeError"; err_message := "fetch failed" |}).
Proof.
  intros host.
  destruct (PaymentIntents_create_outcomes host
              {| http := sample_client; basePath := "/payment_intents" |}
              [("amount", JNum 10000)]
              {| url_base := "https://api.paymongo.com/payment_intents";
                 url_query := None; url_searchParams := [];
                 url_fragment := None |} eq_refl) as (Hnet & _ & _).
  apply Hnet. reflexivity.
Defined.

(** ** Operations without a payload *)

(** X19.  [webhooks.enable] sends a [POST] that carries no body to
    [<base path>/<id>/enable]; on a status in 200..299 with a JSON object
    it returns the object's [data], and on a status outside that range it
    throws the [PayMongoError] that [fromResponse] builds from the answer,
    or the [TypeError] of [fromResponse] when it builds none. *)
Theorem Webhooks_enable_posts_without_body
    (host : Host) (this : BaseResource.t) (id : string)
    (u : URL) (response : Response) :
  id ≠ EmptyString →
  URL_new host (basePath this +:+ "/" +:+ id +:+ "/enable")
    (resolvedBaseUrl (HttpClient.config (http this))) = Some u →
  fetch host (URL_toString u)
    {| init_method := POST;
       init_headers := standard_headers host (http this);
       init_body := None |} = FetchResolved response →
  (¬ (200 ≤ response_status response ≤ 299)%Z →
   Webhooks.enable host this id
   = match PayMongoError.fromResponse (response_status response)
             (HttpClient.parseBody host (response_text response)) with
     | Return error => Throw (ThrowPayMongoError error)
     | Throw e => Throw e
     end)
  ∧ (∀ text answer,
       (200 ≤ response_status response ≤ 299)%Z →
       response_text response = Some text → text ≠ EmptyString →
       JSON_parse host text = Some (JObj answer) →
       Webhooks.enable host this id = Return (prop answer "data")).
Proof.
  intros Hid Hurl Hfetch.
  assert (buildPath this (Some id) (Some "enable")
          = basePath this +:+ "/" +:+ id +:+ "/enable") as Hpath.
  { apply buildPath_id_suffix; [done | discriminate]. }
  unfold Webhooks.enable, HttpClient.post. rewrite Hpath.
  rewrite (request_at host (http this) POST _ JUndefined None u Hurl).
  cbn [truthy andb HttpClient.appendParams]. rewrite Hfetch.
  split.
  - intros Hnot. rewrite (proj2 (response_ok_false response) Hnot).
    by destruct (PayMongoError.fromResponse _ _).
  - intros text answer Hok Htext Hne Hparse.
    rewrite (proj2 (response_ok_spec response) Hok), Htext.
    by rewrite (parseBody_json host text (JObj answer) Hne Hparse).
Qed.

Lemma Webhooks_enable_posts_without_body_witness :
  let hook := JObj [("data", JObj [("id", JStr "hook_1")])] in
  let host :=
    scripted_host true [("HOOK", hook)] "{}"
      (FetchResolved {| response_status := 200;
                        response_text := Some "HOOK" |}) in
  Webhooks.enable host {| http := sample_client; basePath := "/webhooks" |}
    "hook_1"
  = Return (JObj [("id", JStr "hook_1")]).
Proof.
  intros hook host.
  destruct (Webhooks_enable_posts_without_body host
              {| http := sample_client; basePath := "/webhooks" |} "hook_1"
              {| url_base := "https://api.paymongo.com/webhooks/hook_1/enable";
                 url_query := None; url_searchParams := [];
                 url_fragment := None |}
              {| response_status := 200; response_text := Some "HOOK" |})
    as [_ Hok]; [discriminate | reflexivity | reflexivity |].
  apply (Hok "HOOK" [("data", JObj [("id", JStr "hook_1")])]);
    [simpl; lia | reflexivity | discriminate | reflexivity].
Defined.

(** X20.  [customers.deletePaymentMethod] sends a [DELETE] without body to
    [<base path>/<customer id>/payment_methods/<payment method id>]; on a
    status in 200..299 with a JSON object it returns the object's
    [data]. *)
Theorem Customers_deletePaymentMethod_path
    (host : Host) (this : BaseResource.t) (customerId paymentMethodId : string)
    (u : URL) (response : Response) (text : string) (answer : obj) :
  customerId ≠ EmptyString →
  URL_new host
    (basePath this +:+ "/" +:+ customerId +:+ "/payment_methods/"
     +:+ paymentMethodId)
    (resolvedBaseUrl (HttpClient.config (http this))) = Some u →
  fetch host (URL_toString u)
    {| init_method := DELETE;
       init_headers := standard_headers host (http this);
       init_body := None |} = FetchResolved response →
  (200 ≤ response_status response ≤ 299)%Z →
  response_text response = Some text → text ≠ EmptyString →
  JSON_parse host text = Some (JObj answer) →
  Customers.deletePaymentMethod host this customerId paymentMethodId
  = Return (prop answer "data").
Proof.
  intros Hid Hurl Hfetch Hok Htext Hne Hparse.
  unfold Customers.deletePaymentMethod, HttpClient.delete.
  rewrite (buildPath_id_suffix this customerId
             ("payment_methods/" +:+ paymentMethodId) Hid)
    by discriminate.
  change ("/" +:+ "payment_methods/" +:+ paymentMethodId)
    with ("/payment_methods/" +:+ paymentMethodId).
  rewrite (request_at host (http this) DELETE _ JUndefined None u Hurl).
  cbn [truthy andb HttpClient.appendParams]. rewrite Hfetch.
  rewrite (proj2 (response_ok_spec response) Hok), Htext.
  by rewrite (parseBody_json host text (JObj answer) Hne Hparse).
Qed.

Lemma Customers_deletePaymentMethod_path_witness :
  let method := JObj [("data", JObj [("id", JStr "pm_1")])] in
  let host :=
    scripted_host true [("PM", method)] "{}"
      (FetchResolved {| response_status := 200; response_text := Some "PM" |}) in
  Customers.deletePaymentMethod host
    {| http := sample_client; basePath := "/customers" |} "cus_1" "pm_1"
  = Return (JObj [("id", JStr "pm_1")]).
Proof.
  intros method host.
  apply (Customers_deletePaymentMethod_path host
           {| http := sample_client; basePath := "/customers" |}
           "cus_1" "pm_1"
           {| url_base :=
                "https://api.paymongo.com/customers/cus_1/payment_methods/pm_1";
              url_query := None; url_searchParams := [];
              url_fragment := None |}
           {| response_status := 200; response_text := Some "PM" |}
           "PM" [("data", JObj [("id", JStr "pm_1")])]);
    try reflexivity; try discriminate. simpl; lia.
Defined.
